(** * The server container of Permify: start-up, interceptor chains and
      graceful shutdown ([internal/servers/server.go]).

    [Container.Run] is one long effectful Go function.  It is embedded here
    as a program in a small monad that threads a logical clock, an object
    allocator and the stack of deferred calls, and that writes every call
    into the outside world (constructors of collaborators, [net.Listen],
    [go] statements, log lines, shutdown calls) to a trace.  The results of
    the outside world are read from an environment record, one field per
    call site, so that a theorem quantified over the environment covers
    every behaviour of the collaborators. *)

From Stdlib Require Import NArith ZArith List String Bool Lia.
Import ListNotations.
Open Scope string_scope.
Open Scope list_scope.

Set Implicit Arguments.

(** ** Configuration ([internal/config]) *)

(** Modelled from the spec: the package [internal/config] is not part of the
    sources at hand; the records below hold the fields that [Run] reads
    ([srv.RateLimit], [srv.GRPC.Port], [srv.GRPC.TLSConfig.*], [srv.HTTP.*],
    [dst.Port], [authentication.*], [profiler.*]), with the contents of the
    preshared and OIDC sections as the data model of the specification
    names them. *)
Module config.

Record TLSConfig := {
  TLS_Enabled : bool;
  CertPath : string;
  KeyPath : string }.

Record GRPC := {
  GRPC_Port : string;
  GRPC_TLSConfig : TLSConfig }.

Record HTTP := {
  HTTP_Enabled : bool;
  HTTP_Port : string;
  HTTP_TLSConfig : TLSConfig;
  CORSAllowedOrigins : list string;
  CORSAllowedHeaders : list string }.

Record Server := {
  RateLimit : Z;
  Srv_GRPC : GRPC;
  Srv_HTTP : HTTP }.

Record Distributed := { Dst_Port : string }.

Record Preshared := { Keys : list string }.

Record Oidc := { Issuer : string; Audience : string }.

Record Authn := {
  Authn_Enabled : bool;
  Method : string;
  Authn_Preshared : Preshared;
  Authn_Oidc : Oidc }.

Record Profiler := {
  Profiler_Enabled : bool;
  Profiler_Port : string }.

End config.

(** ** Values of the Go runtime and of the libraries *)

(** A non-nil Go [error].  A Go variable of type [error] is an
    [option error], [None] being [nil]. *)
Inductive error :=
| ErrServerClosed                 (* http.ErrServerClosed *)
| Canceled                        (* context.Canceled *)
| DeadlineExceeded                (* context.DeadlineExceeded *)
| ErrString (msg : string).       (* fmt.Errorf and the collaborators' errors *)

Definition error_eqb (a b : error) : bool :=
  match a, b with
  | ErrServerClosed, ErrServerClosed => true
  | Canceled, Canceled => true
  | DeadlineExceeded, DeadlineExceeded => true
  | ErrString x, ErrString y => String.eqb x y
  | _, _ => false
  end.

(** [errors.Is(err, target)] on errors that wrap nothing. *)
Definition errors_Is (err target : error) : bool := error_eqb err target.

(** [err.Error()] *)
Definition error_Error (e : error) : string :=
  match e with
  | ErrServerClosed => "http: Server closed"
  | Canceled => "context canceled"
  | DeadlineExceeded => "context deadline exceeded"
  | ErrString m => m
  end.

(** A pair [(value, err)] as Go functions return it. *)
Inductive result (A : Type) :=
| Ok (a : A)
| Err (e : error).
Arguments Ok {A} a.
Arguments Err {A} e.

(** The identity of an object on the heap. *)
Definition ptr := nat.

(** [time.Duration], in nanoseconds; instants of the logical clock have the
    same unit. *)
Definition Duration := N.
Definition Second : Duration := 1000000000%N.

(** A [context.Context]: the instant at which its [Done] channel is closed
    ([None]: never) and the error [Err()] reports from then on. *)
Record Context := {
  done_at : option N;
  ctx_err : error }.

Definition ctx_done (c : Context) (t : N) : bool :=
  match done_at c with
  | Some d => (d <=? t)%N
  | None => false
  end.

(** [ctx.Err()] at instant [t]. *)
Definition Context_Err (c : Context) (t : N) : option error :=
  if ctx_done c t then Some (ctx_err c) else None.

(** What is left of the life of a context at instant [t]; [None] is
    unbounded. *)
Definition remaining (c : Context) (t : N) : option Duration :=
  match done_at c with
  | Some d => Some (d - t)%N
  | None => None
  end.

(** ** Interceptors and server options *)

Definition Limiter := ptr.
Definition Invoker := ptr.

Inductive AuthFunc :=
| KeyAuthFunc (authenticator : ptr).        (* middleware.KeyAuthFunc *)

Inductive UnaryServerInterceptor :=
| grpcValidator_Unary
| grpcRecovery_Unary
| ratelimit_Unary (limiter : Limiter)
| grpcAuth_Unary (f : AuthFunc)
| oidc_Unary (authenticator : ptr).

Inductive StreamServerInterceptor :=
| grpcValidator_Stream
| grpcRecovery_Stream
| ratelimit_Stream (limiter : Limiter)
| grpcAuth_Stream (f : AuthFunc)
| oidc_Stream (authenticator : ptr).

(** What a stage of a chain does, whichever kind of call it wraps. *)
Inductive Stage :=
| Validation
| Recovery
| RateLimiting (limiter : Limiter)
| KeyAuthentication (authenticator : ptr)
| OidcAuthentication (authenticator : ptr).

Definition unary_stage (i : UnaryServerInterceptor) : Stage :=
  match i with
  | grpcValidator_Unary => Validation
  | grpcRecovery_Unary => Recovery
  | ratelimit_Unary l => RateLimiting l
  | grpcAuth_Unary (KeyAuthFunc a) => KeyAuthentication a
  | oidc_Unary a => OidcAuthentication a
  end.

Definition stream_stage (i : StreamServerInterceptor) : Stage :=
  match i with
  | grpcValidator_Stream => Validation
  | grpcRecovery_Stream => Recovery
  | ratelimit_Stream l => RateLimiting l
  | grpcAuth_Stream (KeyAuthFunc a) => KeyAuthentication a
  | oidc_Stream a => OidcAuthentication a
  end.

Definition is_authentication (s : Stage) : bool :=
  match s with
  | KeyAuthentication _ | OidcAuthentication _ => true
  | _ => false
  end.

(** [credentials.TransportCredentials] *)
Inductive TransportCredentials :=
| ServerTLS (cert key : string)
| ClientTLS (cert serverNameOverride : string)
| Insecure.

Inductive ServerOption :=
| ChainUnaryInterceptor (l : list UnaryServerInterceptor)
| ChainStreamInterceptor (l : list StreamServerInterceptor)
| Creds (c : TransportCredentials).

Inductive DialOption :=
| WithBlock
| WithUnaryInterceptor_otelgrpc
| WithTransportCredentials (c : TransportCredentials).

(** ** The services and the container *)

Record Container := {
  C_Invoker : Invoker;
  DR : ptr;
  DW : ptr;
  SR : ptr;
  SW : ptr;
  TR : ptr;
  TW : ptr;
  W : ptr }.

Definition NewContainer (invoker : Invoker) (dr dw sr sw tr tw w : ptr)
  : Container :=
  {| C_Invoker := invoker; DR := dr; DW := dw; SR := sr; SW := sw;
     TR := tr; TW := tw; W := w |}.

Inductive Service :=
| PermissionServer (invoker : Invoker)
| SchemaServer (sw sr : ptr)
| DataServer (dr dw sr : ptr)
| TenancyServer (tr tw : ptr)
| WatchServer (w dr : ptr)
| HealthServer
| ReflectionService.

Inductive Handler :=
| PermissionHandler
| SchemaHandler
| DataHandler
| TenancyHandler.

(** ** The HTTP side *)

Record MarshalOptions := {
  UseProtoNames : bool;
  EmitUnpopulated : bool }.

Record UnmarshalOptions := { DiscardUnknown : bool }.

Record JSONPb := {
  JSON_MarshalOptions : MarshalOptions;
  JSON_UnmarshalOptions : UnmarshalOptions }.

Inductive ServeMuxOption :=
| WithHealthzEndpoint (healthClientConn : ptr)
| WithMarshalerOption (mime : string) (httpBodyMarshaler : JSONPb).

Definition MIMEWildcard : string := "*".

Record cors_Options := {
  AllowCredentials : bool;
  AllowedOrigins : list string;
  AllowedHeaders : list string;
  AllowedMethods : list string }.

Inductive http_Handler :=
| pprof_mux (routes : list string)
| cors_Handler (o : cors_Options) (mux : ptr).

(** [http.Server]; a timeout of 0 is one the code leaves unset. *)
Record http_Server := {
  Addr : string;
  Srv_Handler : http_Handler;
  ReadTimeout : Duration;
  WriteTimeout : Duration;
  IdleTimeout : Duration;
  ReadHeaderTimeout : Duration }.

(** ** Goroutines, log lines and the trace *)

Inductive level := LevelInfo | LevelError.

(** The four function literals [Run] starts with [go], each with the
    variables it captures. *)
Inductive goroutine :=
| go_profiler (port : string) (mux : http_Handler)
| go_grpcServer_Serve (grpcServer lis : ptr)
| go_invokeServer_Serve (invokeServer invokeLis : ptr)
| go_httpServer (httpServer : http_Server) (tls : config.TLSConfig).

Inductive event :=
| EvNewRateLimiter (rate : Z) (limiter : Limiter)
| EvNewKeyAuthn (cfg : config.Preshared) (r : result ptr)
| EvNewOidcAuthn (cfg : config.Oidc) (r : result ptr)
| EvNewServerTLSFromFile (cert key : string) (r : result TransportCredentials)
| EvNewServer (server : ptr) (opts : list ServerOption)
| EvRegister (server : ptr) (svc : Service)
| EvGo (g : goroutine)
| EvListen (address : string) (r : result ptr)
| EvListenerClose (lis : ptr)
| EvLog (lv : level) (msg : string)
| EvNewClientTLSFromFile (cert : string) (r : result TransportCredentials)
| EvWithTimeout (parent : Context) (d : Duration) (at_ : N) (child : Context)
| EvCancel (c : Context)
| EvDialContext (c : Context) (target : string) (opts : list DialOption)
                (r : result ptr)
| EvConnClose (conn : ptr) (r : option error)
| EvNewServeMux (opts : list ServeMuxOption) (mux : ptr)
| EvRegisterHandler (h : Handler) (mux conn : ptr) (r : option error)
| EvDone (c : Context) (at_ : N)
| EvShutdown (server : http_Server) (c : Context) (at_ : N) (r : option error)
| EvGracefulStop (server : ptr).

Definition trace := list event.

(** ** The outside world *)

(** What the collaborators and the operating system answer, one field per
    call site of [Run] and of its goroutines.  [None] in an [option error]
    is Go's [nil]. *)
Record Env := {
  (** the instant at which [Run] is entered *)
  clock0 : N;
  (** [preshared.NewKeyAuthn(ctx, cfg)] *)
  preshared_NewKeyAuthn : config.Preshared -> option error;
  (** [oidc.NewOidcAuthn(ctx, cfg)] *)
  oidc_NewOidcAuthn : config.Oidc -> option error;
  (** [tls.LoadX509KeyPair(certFile, keyFile)], through which both
      [credentials.NewServerTLSFromFile] and [http.Server.ServeTLS] read
      their files *)
  tls_LoadX509KeyPair : string -> string -> option error;
  (** reading the certificate in [credentials.NewClientTLSFromFile] *)
  client_cert_pool : string -> option error;
  (** [net.Listen] for the primary and for the invoker listener *)
  listen_grpc : option error;
  listen_invoke : option error;
  (** how long the primary server takes to answer the gateway's blocking
      dial; [None]: it never answers *)
  dial_latency : option Duration;
  (** [grpcV1.Register...Handler(ctx, mux, conn)] *)
  register_handler : Handler -> option error;
  (** [conn.Close()] *)
  conn_close : option error;
  (** how long the HTTP connections in flight at shutdown need to become
      idle (0: all idle), and the error of closing the HTTP listeners *)
  http_drain : Duration;
  http_close_listeners : option error;
  (** inside the goroutines: the bind and the end of the serve loop of the
      profiler and of the HTTP gateway, and what [Serve] of the two RPC
      servers returns *)
  pprof_bind : option error;
  pprof_serve : error;
  http_bind : option error;
  http_serve : error;
  grpcServer_Serve : option error;
  invokeServer_Serve : option error;
  (** how long the calls in flight on each RPC server take to finish once
      the server is asked to stop gracefully; [None]: one of them never
      finishes (an open stream, say) *)
  grpcServer_drain : option Duration;
  invokeServer_drain : option Duration }.

(** ** The monad of [Run] *)

(** A deferred call. *)
Inductive deferred :=
| defer_cancel (c : Context)
| defer_conn_Close (conn : ptr).

Record State := {
  now : N;
  next : ptr;
  defers : list deferred }.

(** How a statement ends: it falls through with a value, executes
    [return err], panics, or blocks for ever. *)
Inductive Res (A : Type) :=
| Val (a : A)
| Return (err : option error)
| Panic (msg : string)
| Block.
Arguments Val {A} a.
Arguments Return {A} err.
Arguments Panic {A} msg.
Arguments Block {A}.

Definition M (A : Type) := State -> trace * State * Res A.

Definition ret {A} (a : A) : M A := fun st => ([], st, Val a).

Definition bind {A B} (m : M A) (f : A -> M B) : M B :=
  fun st =>
    let '(t1, st1, r) := m st in
    match r with
    | Val a => let '(t2, st2, r2) := f a st1 in (t1 ++ t2, st2, r2)
    | Return e => (t1, st1, Return e)
    | Panic msg => (t1, st1, Panic msg)
    | Block => (t1, st1, Block)
    end.

Declare Scope go_scope.
Delimit Scope go_scope with go.
Notation "x <- m ;; k" := (bind m (fun x => k))
  (at level 61, m at next level, right associativity) : go_scope.
Notation "m ;; k" := (bind m (fun _ => k))
  (at level 61, right associativity) : go_scope.
Open Scope go_scope.

(** [return err] *)
Definition return_ {A} (err : option error) : M A :=
  fun st => ([], st, Return err).

Definition emit (e : event) : M unit := fun st => ([e], st, Val tt).

(** Dereference of a pointer: a nil pointer panics. *)
Definition deref {A} (p : option A) : M A :=
  match p with
  | Some a => ret a
  | None =>
      fun st =>
        ([], st,
         Panic "runtime error: invalid memory address or nil pointer dereference")
  end.

(** [new]: a fresh object. *)
Definition alloc : M ptr :=
  fun st =>
    ([], {| now := now st; next := S (next st); defers := defers st |},
     Val (next st)).

Definition clock : M N := fun st => ([], st, Val (now st)).

Definition set_clock (t : N) : M unit :=
  fun st => ([], {| now := t; next := next st; defers := defers st |}, Val tt).

(** [defer d] *)
Definition defer (d : deferred) : M unit :=
  fun st =>
    ([], {| now := now st; next := next st; defers := d :: defers st |},
     Val tt).

(** [if err != nil { return err }] after a call that returns [(value, err)] *)
Definition check {A} (r : result A) : M A :=
  match r with
  | Ok a => ret a
  | Err e => return_ (Some e)
  end.

(** [if err != nil { return err }] after a call that returns [err] *)
Definition check_err (r : option error) : M unit :=
  match r with
  | None => ret tt
  | Some e => return_ (Some e)
  end.

Definition slog (lv : level) (msg : string) : M unit := emit (EvLog lv msg).

Definition go_ (g : goroutine) : M unit := emit (EvGo g).

(** ** The calls [Run] makes *)

Section Run.

Variable env : Env.

(** Modelled from the spec: [middleware.NewRateLimiter(reqPerSec)] is not
    among the sources; each call constructs one limiter, a fresh object,
    for the given rate. *)
Definition middleware_NewRateLimiter (reqPerSec : Z) : M Limiter :=
  limiter <- alloc ;;
  emit (EvNewRateLimiter reqPerSec limiter) ;;
  ret limiter.

(** Modelled from the spec: [preshared.NewKeyAuthn(ctx, cfg)] is not among
    the sources; it returns a new authenticator, or the error the outside
    world has for this key material. *)
Definition NewKeyAuthn (cfg : config.Preshared) : M (result ptr) :=
  match preshared_NewKeyAuthn env cfg with
  | Some e => emit (EvNewKeyAuthn cfg (Err e)) ;; ret (Err e)
  | None =>
      a <- alloc ;;
      emit (EvNewKeyAuthn cfg (Ok a)) ;;
      ret (Ok a)
  end.

(** Modelled from the spec: [oidc.NewOidcAuthn(ctx, cfg)] is not among the
    sources; it returns a new authenticator, or the error the outside world
    has for this issuer. *)
Definition NewOidcAuthn (cfg : config.Oidc) : M (result ptr) :=
  match oidc_NewOidcAuthn env cfg with
  | Some e => emit (EvNewOidcAuthn cfg (Err e)) ;; ret (Err e)
  | None =>
      a <- alloc ;;
      emit (EvNewOidcAuthn cfg (Ok a)) ;;
      ret (Ok a)
  end.

(** [credentials.NewServerTLSFromFile(certFile, keyFile)] *)
Definition credentials_NewServerTLSFromFile (cert key : string)
  : M (result TransportCredentials) :=
  let r := match tls_LoadX509KeyPair env cert key with
           | Some e => Err e
           | None => Ok (ServerTLS cert key)
           end in
  emit (EvNewServerTLSFromFile cert key r) ;;
  ret r.

(** [credentials.NewClientTLSFromFile(certFile, serverNameOverride)] *)
Definition credentials_NewClientTLSFromFile (cert override : string)
  : M (result TransportCredentials) :=
  let r := match client_cert_pool env cert with
           | Some e => Err e
           | None => Ok (ClientTLS cert override)
           end in
  emit (EvNewClientTLSFromFile cert r) ;;
  ret r.

(** [grpc.NewServer(opts...)] *)
Definition grpc_NewServer (opts : list ServerOption) : M ptr :=
  server <- alloc ;;
  emit (EvNewServer server opts) ;;
  ret server.

Definition register (server : ptr) (svc : Service) : M unit :=
  emit (EvRegister server svc).

(** [net.Listen("tcp", address)]; [site] is the answer of the operating
    system at this call site. *)
Definition net_Listen (site : option error) (address : string)
  : M (result ptr) :=
  match site with
  | Some e => emit (EvListen address (Err e)) ;; ret (Err e)
  | None =>
      lis <- alloc ;;
      emit (EvListen address (Ok lis)) ;;
      ret (Ok lis)
  end.

(** [context.WithTimeout(parent, d)]: the child is done at its deadline or
    when the parent is done, whichever comes first.  The returned context
    also stands for its cancel function. *)
Definition context_WithTimeout (parent : Context) (d : Duration)
  : M Context :=
  t <- clock ;;
  let deadline := (t + d)%N in
  let child :=
    if ctx_done parent deadline then parent
    else {| done_at := Some deadline; ctx_err := DeadlineExceeded |} in
  emit (EvWithTimeout parent d t child) ;;
  ret child.

(** [grpc.DialContext(ctx, target, opts...)] with [grpc.WithBlock()]: it
    returns once the connection is ready, or with the error of the context
    when that is done first. *)
Definition grpc_DialContext (c : Context) (target : string)
  (opts : list DialOption) : M (result ptr) :=
  t <- clock ;;
  match dial_latency env, done_at c with
  | Some d, None =>
      set_clock (t + d)%N ;;
      conn <- alloc ;;
      emit (EvDialContext c target opts (Ok conn)) ;;
      ret (Ok conn)
  | Some d, Some stop =>
      if (stop <=? t + d)%N then
        set_clock (N.max t stop) ;;
        emit (EvDialContext c target opts (Err (ctx_err c))) ;;
        ret (Err (ctx_err c))
      else
        set_clock (t + d)%N ;;
        conn <- alloc ;;
        emit (EvDialContext c target opts (Ok conn)) ;;
        ret (Ok conn)
  | None, Some stop =>
      set_clock (N.max t stop) ;;
      emit (EvDialContext c target opts (Err (ctx_err c))) ;;
      ret (Err (ctx_err c))
  | None, None => fun st => ([], st, Block)
  end.

(** [runtime.NewServeMux(opts...)] *)
Definition runtime_NewServeMux (opts : list ServeMuxOption) : M ptr :=
  mux <- alloc ;;
  emit (EvNewServeMux opts mux) ;;
  ret mux.

(** [grpcV1.Register...Handler(ctx, mux, conn)] *)
Definition RegisterHandler (h : Handler) (mux conn : ptr)
  : M (option error) :=
  emit (EvRegisterHandler h mux conn (register_handler env h)) ;;
  ret (register_handler env h).

(** [<-ctx.Done()] *)
Definition wait_Done (c : Context) : M unit :=
  t <- clock ;;
  match done_at c with
  | Some stop =>
      set_clock (N.max t stop) ;;
      emit (EvDone c (N.max t stop))
  | None => fun st => ([], st, Block)
  end.

(** [httpServer.Shutdown(ctx)]: the listeners are closed, then the call
    waits for the connections to become idle; when the context is done
    before that, it returns the error of the context, otherwise the error
    of closing the listeners. *)
Definition http_Shutdown (server : http_Server) (c : Context)
  : M (option error) :=
  t <- clock ;;
  if (http_drain env =? 0)%N then
    emit (EvShutdown server c t (http_close_listeners env)) ;;
    ret (http_close_listeners env)
  else if ctx_done c (t + http_drain env)%N then
    set_clock (N.max t (match done_at c with Some stop => stop | None => t end)) ;;
    emit (EvShutdown server c t (Some (ctx_err c))) ;;
    ret (Some (ctx_err c))
  else
    set_clock (t + http_drain env)%N ;;
    emit (EvShutdown server c t (http_close_listeners env)) ;;
    ret (http_close_listeners env).

(** [server.GracefulStop()]: the server stops accepting, its listeners are
    closed, and the call waits, without a bound, until every call in flight
    on the server has finished; [drain] is what the outside world has for
    that at this call site. *)
Definition GracefulStop (drain : option Duration) (server : ptr) : M unit :=
  emit (EvGracefulStop server) ;;
  match drain with
  | Some d =>
      t <- clock ;;
      set_clock (t + d)%N
  | None => fun st => ([], st, Block)
  end.

(** ** [Container.Run], lines 92 to 353 *)

Definition pprof_routes : list string :=
  [ "/debug/pprof/"; "/debug/pprof/cmdline"; "/debug/pprof/profile";
    "/debug/pprof/symbol"; "/debug/pprof/trace" ].

(** Lines 116 to 139: the authentication method adds its interceptor at
    the end of both chains. *)
Definition configure_authentication (authentication : option config.Authn)
  (unaryInterceptors : list UnaryServerInterceptor)
  (streamingInterceptors : list StreamServerInterceptor)
  : M (list UnaryServerInterceptor * list StreamServerInterceptor) :=
  match authentication with
  | Some a =>
      if config.Authn_Enabled a then
        if (config.Method a =? "preshared")%string then
          r <- NewKeyAuthn (config.Authn_Preshared a) ;;
          authenticator <- check r ;;
          ret (unaryInterceptors
                 ++ [grpcAuth_Unary (KeyAuthFunc authenticator)],
               streamingInterceptors
                 ++ [grpcAuth_Stream (KeyAuthFunc authenticator)])
        else if (config.Method a =? "oidc")%string then
          r <- NewOidcAuthn (config.Authn_Oidc a) ;;
          authenticator <- check r ;;
          ret (unaryInterceptors ++ [oidc_Unary authenticator],
               streamingInterceptors ++ [oidc_Stream authenticator])
        else
          return_ (Some (ErrString
            ("unknown authentication method: '" ++ config.Method a ++ "'")%string))
      else ret (unaryInterceptors, streamingInterceptors)
  | None => ret (unaryInterceptors, streamingInterceptors)
  end.

(** Lines 141 to 153: the server options. *)
Definition server_options (srv : config.Server)
  (unaryInterceptors : list UnaryServerInterceptor)
  (streamingInterceptors : list StreamServerInterceptor)
  : M (list ServerOption) :=
  let opts := [ ChainUnaryInterceptor unaryInterceptors;
                ChainStreamInterceptor streamingInterceptors ] in
  let tls := config.GRPC_TLSConfig (config.Srv_GRPC srv) in
  if config.TLS_Enabled tls then
    r <- credentials_NewServerTLSFromFile
           (config.CertPath tls) (config.KeyPath tls) ;;
    c <- check r ;;
    ret (opts ++ [Creds c])
  else ret opts.

(** Lines 155 to 175: the two RPC servers and their services. *)
Definition new_servers (s : Container) (localInvoker : Invoker)
  (opts : list ServerOption) : M (ptr * ptr) :=
  grpcServer <- grpc_NewServer opts ;;
  register grpcServer (PermissionServer (C_Invoker s)) ;;
  register grpcServer (SchemaServer (SW s) (SR s)) ;;
  register grpcServer (DataServer (DR s) (DW s) (SR s)) ;;
  register grpcServer (TenancyServer (TR s) (TW s)) ;;
  register grpcServer (WatchServer (W s) (DR s)) ;;
  register grpcServer HealthServer ;;
  register grpcServer ReflectionService ;;
  invokeServer <- grpc_NewServer opts ;;
  register invokeServer (PermissionServer localInvoker) ;;
  register invokeServer HealthServer ;;
  register invokeServer ReflectionService ;;
  ret (grpcServer, invokeServer).

(** Lines 177 to 209: the profiler. *)
Definition start_profiler (profiler : option config.Profiler) : M unit :=
  p <- deref profiler ;;
  if config.Profiler_Enabled p then
    go_ (go_profiler (config.Profiler_Port p) (pprof_mux pprof_routes))
  else ret tt.

(** Lines 211 to 237: both listeners are bound, then both servers serve.
    (The log lines carry a rocket emoji in front, left out here.) *)
Definition bind_and_serve (srv : config.Server)
  (dst : option config.Distributed) (grpcServer invokeServer : ptr)
  : M unit :=
  let port := config.GRPC_Port (config.Srv_GRPC srv) in
  r <- net_Listen (listen_grpc env) (":" ++ port)%string ;;
  lis <- check r ;;
  d <- deref dst ;;
  r <- net_Listen (listen_invoke env) (":" ++ config.Dst_Port d)%string ;;
  invokeLis <- check r ;;
  go_ (go_grpcServer_Serve grpcServer lis) ;;
  go_ (go_invokeServer_Serve invokeServer invokeLis) ;;
  slog LevelInfo ("grpc server successfully started: " ++ port)%string ;;
  slog LevelInfo ("invoker grpc server successfully started: "
                  ++ config.Dst_Port d)%string.

Definition gateway_marshaler : JSONPb :=
  {| JSON_MarshalOptions :=
       {| UseProtoNames := true; EmitUnpopulated := true |};
     JSON_UnmarshalOptions := {| DiscardUnknown := true |} |}.

(** Lines 239 to 330: the HTTP gateway; the result is [httpServer], nil
    when the gateway is off. *)
Definition start_gateway (ctx : Context) (srv : config.Server)
  : M (option http_Server) :=
  let http := config.Srv_HTTP srv in
  let port := config.GRPC_Port (config.Srv_GRPC srv) in
  let tls := config.GRPC_TLSConfig (config.Srv_GRPC srv) in
  if config.HTTP_Enabled http then
    let options := [WithBlock; WithUnaryInterceptor_otelgrpc] in
    options <-
      (if config.TLS_Enabled tls then
         r <- credentials_NewClientTLSFromFile (config.CertPath tls) "" ;;
         c <- check r ;;
         ret (options ++ [WithTransportCredentials c])
       else ret (options ++ [WithTransportCredentials Insecure])) ;;
    timeoutCtx <- context_WithTimeout ctx (3 * Second)%N ;;
    defer (defer_cancel timeoutCtx) ;;
    r <- grpc_DialContext timeoutCtx (":" ++ port)%string options ;;
    conn <- check r ;;
    defer (defer_conn_Close conn) ;;
    let muxOpts := [ WithHealthzEndpoint conn;
                     WithMarshalerOption MIMEWildcard gateway_marshaler ] in
    mux <- runtime_NewServeMux muxOpts ;;
    err <- RegisterHandler PermissionHandler mux conn ;;
    check_err err ;;
    err <- RegisterHandler SchemaHandler mux conn ;;
    check_err err ;;
    err <- RegisterHandler DataHandler mux conn ;;
    check_err err ;;
    err <- RegisterHandler TenancyHandler mux conn ;;
    check_err err ;;
    let httpServer :=
      {| Addr := (":" ++ config.HTTP_Port http)%string;
         Srv_Handler :=
           cors_Handler
             {| AllowCredentials := true;
                AllowedOrigins := config.CORSAllowedOrigins http;
                AllowedHeaders := config.CORSAllowedHeaders http;
                AllowedMethods :=
                  ["GET"; "POST"; "HEAD"; "PATCH"; "DELETE"; "PUT"] |}
             mux;
         ReadTimeout := 0%N;
         WriteTimeout := 0%N;
         IdleTimeout := 0%N;
         ReadHeaderTimeout := (5 * Second)%N |} in
    go_ (go_httpServer httpServer (config.HTTP_TLSConfig http)) ;;
    slog LevelInfo
      ("http server successfully started: " ++ config.HTTP_Port http)%string ;;
    ret (Some httpServer)
  else ret None.

(** Lines 332 to 352: the wait for the cancellation and the shutdown. *)
Definition wait_and_shutdown (ctx : Context)
  (httpServer : option http_Server) (grpcServer invokeServer : ptr)
  : M unit :=
  wait_Done ctx ;;
  ctxShutdown <- context_WithTimeout ctx (5 * Second)%N ;;
  defer (defer_cancel ctxShutdown) ;;
  match httpServer with
  | Some server =>
      err <- http_Shutdown server ctxShutdown ;;
      match err with
      | Some e =>
          slog LevelError (error_Error e) ;;
          return_ (Some e)
      | None => ret tt
      end
  | None => ret tt
  end ;;
  GracefulStop (grpcServer_drain env) grpcServer ;;
  GracefulStop (invokeServer_drain env) invokeServer ;;
  slog LevelInfo "gracefully shutting down" ;;
  return_ None.

(** The body of [Run], the deferred calls still pending. *)
Definition Run_body (s : Container) (ctx : Context)
  (srv : option config.Server) (dst : option config.Distributed)
  (authentication : option config.Authn)
  (profiler : option config.Profiler) (localInvoker : Invoker) : M unit :=
  srv_ <- deref srv ;;
  limiter <- middleware_NewRateLimiter (config.RateLimit srv_) ;;
  let unaryInterceptors :=
    [ grpcValidator_Unary; grpcRecovery_Unary; ratelimit_Unary limiter ] in
  let streamingInterceptors :=
    [ grpcValidator_Stream; grpcRecovery_Stream; ratelimit_Stream limiter ] in
  chains <- configure_authentication authentication
              unaryInterceptors streamingInterceptors ;;
  opts <- server_options srv_ (fst chains) (snd chains) ;;
  servers <- new_servers s localInvoker opts ;;
  let grpcServer := fst servers in
  let invokeServer := snd servers in
  start_profiler profiler ;;
  bind_and_serve srv_ dst grpcServer invokeServer ;;
  httpServer <- start_gateway ctx srv_ ;;
  wait_and_shutdown ctx httpServer grpcServer invokeServer.

(** The deferred calls run last in, first out; the state keeps the latest
    at the head.  Lines 259, 265 to 269 and 337. *)
Fixpoint run_defers (ds : list deferred) : trace :=
  match ds with
  | [] => []
  | defer_cancel c :: rest => EvCancel c :: run_defers rest
  | defer_conn_Close conn :: rest =>
      EvConnClose conn (conn_close env)
        :: match conn_close env with
           | Some _ => [EvLog LevelError "Failed to close gRPC connection: %v"]
           | None => []
           end
        ++ run_defers rest
  end.

(** How a call of [Run] ends. *)
Inductive outcome :=
| Returned (err : option error)
| Panicked (msg : string)
| Blocked.

Definition initial : State :=
  {| now := clock0 env; next := 0; defers := [] |}.

(** [Run]: what the caller gets and everything the call did. *)
Definition Run (s : Container) (ctx : Context)
  (srv : option config.Server) (dst : option config.Distributed)
  (authentication : option config.Authn)
  (profiler : option config.Profiler) (localInvoker : Invoker)
  : outcome * trace :=
  let '(t, st, r) :=
    Run_body s ctx srv dst authentication profiler localInvoker initial in
  match r with
  | Val _ => (Returned None, t ++ run_defers (defers st))
  | Return err => (Returned err, t ++ run_defers (defers st))
  | Panic msg => (Panicked msg, t ++ run_defers (defers st))
  | Block => (Blocked, t)
  end.

(** ** The goroutines *)

(** [server.ListenAndServe()]: the bind, then the serve loop, which ends
    with a non-nil error ([http.ErrServerClosed] after a shutdown). *)
Definition http_ListenAndServe (bind_ : option error) (serve : error)
  : error :=
  match bind_ with
  | Some e => e
  | None => serve
  end.

(** [server.ListenAndServeTLS(certFile, keyFile)]: the bind, then the key
    pair is read, then the serve loop. *)
Definition http_ListenAndServeTLS (bind_ : option error) (serve : error)
  (cert key : string) : error :=
  match bind_ with
  | Some e => e
  | None =>
      match tls_LoadX509KeyPair env cert key with
      | Some e => e
      | None => serve
      end
  end.

(** What each goroutine does, as its own trace. *)
Definition goroutine_trace (g : goroutine) : trace :=
  match g with
  | go_profiler port mux =>
      (* lines 188 to 208 *)
      EvLog LevelInfo ("profiler server successfully started: " ++ port)%string
        :: match Some (http_ListenAndServe (pprof_bind env) (pprof_serve env)) with
           | Some err =>
               if errors_Is err ErrServerClosed
               then [EvLog LevelError "failed to start profiler"]
               else []
           | None => []
           end
  | go_grpcServer_Serve _ _ =>
      (* lines 224 to 228 *)
      match grpcServer_Serve env with
      | Some _ => [EvLog LevelError "failed to start grpc server"]
      | None => []
      end
  | go_invokeServer_Serve _ _ =>
      (* lines 230 to 234 *)
      match invokeServer_Serve env with
      | Some _ => [EvLog LevelError "failed to start invoke grpc server"]
      | None => []
      end
  | go_httpServer server tls =>
      (* lines 317 to 327 *)
      let err :=
        if config.TLS_Enabled tls
        then http_ListenAndServeTLS (http_bind env) (http_serve env)
               (config.CertPath tls) (config.KeyPath tls)
        else http_ListenAndServe (http_bind env) (http_serve env) in
      if negb (errors_Is err ErrServerClosed)
      then [EvLog LevelError (error_Error err)]
      else []
  end.

End Run.

(** ** What a trace shows *)

(** The rate limiters constructed. *)
Definition limiters (t : trace) : list Limiter :=
  flat_map (fun e => match e with
                     | EvNewRateLimiter _ l => [l]
                     | _ => []
                     end) t.

(** The RPC servers constructed, and the options of each. *)
Definition servers (t : trace) : list ptr :=
  flat_map (fun e => match e with
                     | EvNewServer s _ => [s]
                     | _ => []
                     end) t.

Definition server_options_of (t : trace) : list (list ServerOption) :=
  flat_map (fun e => match e with
                     | EvNewServer _ opts => [opts]
                     | _ => []
                     end) t.

(** The steps of a shutdown, in the order in which they are taken. *)
Inductive stop :=
| StopHTTP
| StopRPC (server : ptr).

Definition stops (t : trace) : list stop :=
  flat_map (fun e => match e with
                     | EvShutdown _ _ _ _ => [StopHTTP]
                     | EvGracefulStop s => [StopRPC s]
                     | _ => []
                     end) t.

(** The gateway is present once its goroutine is started: [httpServer] is
    assigned just before. *)
Definition gateway_started (t : trace) : bool :=
  existsb (fun e => match e with
                    | EvGo (go_httpServer _ _) => true
                    | _ => false
                    end) t.

(** The listeners [Run] itself opens with [net.Listen], lines 212 and 218.
    (The listeners that [ListenAndServe] binds inside the goroutines of the
    profiler and of the gateway are not events of [Run]; [Run] has no hand
    on the profiler's, whose server it never shuts down.) *)
Definition opened (t : trace) : list ptr :=
  flat_map (fun e => match e with
                     | EvListen _ (Ok lis) => [lis]
                     | _ => []
                     end) t.

(** The listeners handed to [server.Serve]. *)
Definition served_by (t : trace) (server : ptr) : list ptr :=
  flat_map (fun e => match e with
                     | EvGo (go_grpcServer_Serve s lis)
                     | EvGo (go_invokeServer_Serve s lis) =>
                         if Nat.eqb s server then [lis] else []
                     | _ => []
                     end) t.

(** The listeners released: closed by hand, or closed by the graceful stop
    of the server they were handed to. *)
Definition released (t : trace) : list ptr :=
  flat_map (fun e => match e with
                     | EvListenerClose lis => [lis]
                     | EvGracefulStop s => served_by t s
                     | _ => []
                     end) t.

(** The listeners of [Run] itself that are still open at the end of the
    trace. *)
Definition leaked (t : trace) : list ptr :=
  filter (fun lis => negb (existsb (Nat.eqb lis) (released t))) (opened t).

(** A goroutine was started, of whichever kind. *)
Definition started (t : trace) : list goroutine :=
  flat_map (fun e => match e with
                     | EvGo g => [g]
                     | _ => []
                     end) t.

(** The error-level lines of a trace. *)
Definition error_lines (t : trace) : list string :=
  flat_map (fun e => match e with
                     | EvLog LevelError msg => [msg]
                     | _ => []
                     end) t.

(** The two chains of a list of server options. *)
Definition unary_chain (opts : list ServerOption)
  : list UnaryServerInterceptor :=
  flat_map (fun o => match o with
                     | ChainUnaryInterceptor l => l
                     | _ => []
                     end) opts.

Definition stream_chain (opts : list ServerOption)
  : list StreamServerInterceptor :=
  flat_map (fun o => match o with
                     | ChainStreamInterceptor l => l
                     | _ => []
                     end) opts.

(** ** A program logic for [M] *)

Definition tr_of {A} (x : trace * State * Res A) : trace := fst (fst x).
Definition res_of {A} (x : trace * State * Res A) : Res A := snd x.

(** From every state, the trace and the result of [m] are related by
    [Post]. *)
Definition ensures {A} (m : M A) (Post : trace -> Res A -> Prop) : Prop :=
  forall st, Post (tr_of (m st)) (res_of (m st)).

(** Every event of [m] satisfies [P], a value it falls through with
    satisfies [V] and an error it returns satisfies [X]. *)
Definition obeys {A} (P : event -> Prop) (m : M A)
  (V : A -> Prop) (X : option error -> Prop) : Prop :=
  ensures m (fun t r =>
    Forall P t /\
    match r with
    | Val a => V a
    | Return e => X e
    | _ => True
    end).

(** A result that is not a value, at another type. *)
Definition pass {A B} (r : Res A) : Res B :=
  match r with
  | Val _ => Block
  | Return e => Return e
  | Panic msg => Panic msg
  | Block => Block
  end.

Definition is_Val {A} (r : Res A) : bool :=
  match r with
  | Val _ => true
  | _ => false
  end.

Definition any {A} : A -> Prop := fun _ => True.

(** ** The order of the interceptor chains *)

(** The authentication stages a configuration asks for. *)
Definition authentication_stages (authentication : option config.Authn)
  (auth : list Stage) : Prop :=
  match authentication with
  | Some a =>
      if config.Authn_Enabled a then
        if (config.Method a =? "preshared")%string
        then exists k, auth = [KeyAuthentication k]
        else if (config.Method a =? "oidc")%string
             then exists k, auth = [OidcAuthentication k]
             else False
      else auth = []
  | None => auth = []
  end.

(** Both chains are validation, recovery, rate limiting and then the
    authentication stage of the configuration, if any; stage by stage the
    one chain does what the other does. *)
Definition chain_pair_in_order (authentication : option config.Authn)
  (unaryInterceptors : list UnaryServerInterceptor)
  (streamingInterceptors : list StreamServerInterceptor) : Prop :=
  exists limiter auth,
    map unary_stage unaryInterceptors
      = [Validation; Recovery; RateLimiting limiter] ++ auth /\
    map stream_stage streamingInterceptors
      = [Validation; Recovery; RateLimiting limiter] ++ auth /\
    authentication_stages authentication auth.

Definition chains_in_order (authentication : option config.Authn)
  (opts : list ServerOption) : Prop :=
  chain_pair_in_order authentication (unary_chain opts) (stream_chain opts).

Definition built_in_order (authentication : option config.Authn)
  (e : event) : Prop :=
  match e with
  | EvNewServer _ opts => chains_in_order authentication opts
  | _ => True
  end.

(** ** The kinds of events *)

Inductive kind :=
| KNewRateLimiter | KNewKeyAuthn | KNewOidcAuthn | KNewServerTLSFromFile
| KNewServer | KRegister | KGoProfiler | KGoGrpc | KGoInvoke | KGoHTTP
| KListen | KListenerClose | KLog
| KNewClientTLSFromFile | KWithTimeout | KCancel | KDialContext | KConnClose
| KNewServeMux | KRegisterHandler | KDone | KShutdown | KGracefulStop.

Definition kind_of (e : event) : kind :=
  match e with
  | EvNewRateLimiter _ _ => KNewRateLimiter
  | EvNewKeyAuthn _ _ => KNewKeyAuthn
  | EvNewOidcAuthn _ _ => KNewOidcAuthn
  | EvNewServerTLSFromFile _ _ _ => KNewServerTLSFromFile
  | EvNewServer _ _ => KNewServer
  | EvRegister _ _ => KRegister
  | EvGo (go_profiler _ _) => KGoProfiler
  | EvGo (go_grpcServer_Serve _ _) => KGoGrpc
  | EvGo (go_invokeServer_Serve _ _) => KGoInvoke
  | EvGo (go_httpServer _ _) => KGoHTTP
  | EvListen _ _ => KListen
  | EvListenerClose _ => KListenerClose
  | EvLog _ _ => KLog
  | EvNewClientTLSFromFile _ _ => KNewClientTLSFromFile
  | EvWithTimeout _ _ _ _ => KWithTimeout
  | EvCancel _ => KCancel
  | EvDialContext _ _ _ _ => KDialContext
  | EvConnClose _ _ => KConnClose
  | EvNewServeMux _ _ => KNewServeMux
  | EvRegisterHandler _ _ _ _ => KRegisterHandler
  | EvDone _ _ => KDone
  | EvShutdown _ _ _ _ => KShutdown
  | EvGracefulStop _ => KGracefulStop
  end.

(** Every event is of one of the kinds [ks]. *)
Definition among (ks : list kind) (e : event) : Prop := In (kind_of e) ks.

(** The kinds of events of each part of [Run]. *)
Definition init_kinds : list kind :=
  [KNewRateLimiter; KNewKeyAuthn; KNewOidcAuthn; KNewServerTLSFromFile].
Definition servers_kinds : list kind := [KNewServer; KRegister].
Definition early_kinds : list kind := init_kinds ++ servers_kinds.
Definition profiler_kinds : list kind := [KGoProfiler].
Definition bind_kinds : list kind := [KListen; KGoGrpc; KGoInvoke; KLog].
Definition gateway_kinds : list kind :=
  [KNewClientTLSFromFile; KWithTimeout; KDialContext; KNewServeMux;
   KRegisterHandler; KGoHTTP; KLog].
Definition shutdown_kinds : list kind :=
  [KDone; KWithTimeout; KShutdown; KLog; KGracefulStop].
Definition deferred_kinds : list kind := [KCancel; KConnClose; KLog].

(** The kinds of all that comes after the construction of the servers. *)
Definition later_kinds : list kind :=
  profiler_kinds ++ bind_kinds ++ gateway_kinds ++ shutdown_kinds
    ++ deferred_kinds.

(** The kinds of all that comes before the wait for the cancellation. *)
Definition startup_kinds : list kind :=
  early_kinds ++ profiler_kinds ++ bind_kinds ++ gateway_kinds.

(** The kinds of the events that neither construct a server, nor start the
    gateway, nor stop anything. *)
Definition quiet_kinds : list kind :=
  init_kinds ++ [KRegister] ++ profiler_kinds ++ bind_kinds
    ++ [KNewClientTLSFromFile; KWithTimeout; KDialContext; KNewServeMux;
        KRegisterHandler; KLog; KDone; KCancel; KConnClose].

Definition not_nil (e : option error) : Prop := e <> None.

(** ** One admission-control domain *)

(** The rate limiters a chain consults. *)
Definition unary_limiters (l : list UnaryServerInterceptor) : list Limiter :=
  flat_map (fun i => match i with
                     | ratelimit_Unary limiter => [limiter]
                     | _ => []
                     end) l.

Definition stream_limiters (l : list StreamServerInterceptor) : list Limiter :=
  flat_map (fun i => match i with
                     | ratelimit_Stream limiter => [limiter]
                     | _ => []
                     end) l.

(** Every call through [opts], unary or streaming, is admitted by
    [limiter] and by no other limiter. *)
Definition admission_controlled (limiter : Limiter)
  (opts : list ServerOption) : Prop :=
  unary_limiters (unary_chain opts) = [limiter] /\
  stream_limiters (stream_chain opts) = [limiter].

(** One limiter was constructed, and the servers constructed so far, if
    any, are two, built from the same options, which put every call under
    that limiter. *)
Definition shares_limiter (t : trace) : Prop :=
  exists limiter,
    limiters t = [limiter] /\
    (server_options_of t = [] \/
     exists opts,
       server_options_of t = [opts; opts] /\
       admission_controlled limiter opts).

(** ** The JSON policy of the gateway *)

Definition json_policy (m : JSONPb) : Prop :=
  UseProtoNames (JSON_MarshalOptions m) = true /\
  EmitUnpopulated (JSON_MarshalOptions m) = true /\
  DiscardUnknown (JSON_UnmarshalOptions m) = true.

(** The marshalers of a gateway mux, each with the MIME type it serves. *)
Definition marshalers (opts : list ServeMuxOption) : list (string * JSONPb) :=
  flat_map (fun o => match o with
                     | WithMarshalerOption mime m => [(mime, m)]
                     | _ => []
                     end) opts.

(** A gateway mux has one marshaler, for every MIME type, and that one
    keeps the proto names, emits unpopulated fields and discards unknown
    ones. *)
Definition gateway_json_policy (e : event) : Prop :=
  match e with
  | EvNewServeMux opts _ =>
      exists m, marshalers opts = [(MIMEWildcard, m)] /\ json_policy m
  | _ => True
  end.

(** ** The grace period of the HTTP shutdown *)

(** When [Shutdown] is called, nothing is left of the context it gets. *)
Definition shutdown_grace_spent (e : event) : Prop :=
  match e with
  | EvShutdown _ c at_ _ => remaining c at_ = Some 0%N
  | _ => True
  end.

(** ** Start-up, then shutdown *)

(** [p != nil] *)
Definition present {A} (p : option A) : bool :=
  match p with
  | Some _ => true
  | None => false
  end.

Definition outcome_of {A} (r : Res A) : outcome :=
  match r with
  | Val _ => Returned None
  | Return err => Returned err
  | Panic msg => Panicked msg
  | Block => Blocked
  end.

(** The errors of the acquisitions of resources that failed: the binds and
    the dial of the gateway. *)
Definition acquisition_failures (t : trace) : list error :=
  flat_map (fun e => match e with
                     | EvListen _ (Err err) => [err]
                     | EvDialContext _ _ _ (Err err) => [err]
                     | _ => []
                     end) t.

(** A stretch of the start-up in which no acquisition failed. *)
Definition clean (t : trace) : Prop :=
  Forall (among startup_kinds) t /\ acquisition_failures t = [].

(** What a part of the start-up does: when it goes on, panics or blocks, no
    acquisition has failed in it; when it returns, it returns an error, and
    an acquisition that failed in it is the only one and has that error. *)
Definition startup_step {A} (t : trace) (r : Res A) : Prop :=
  Forall (among startup_kinds) t /\
  match r with
  | Return (Some e) =>
      acquisition_failures t = [] \/ acquisition_failures t = [e]
  | Return None => False
  | _ => acquisition_failures t = []
  end.

(** The body of [Run] got through the start-up, with the trace [t1], the
    gateway [h] and the servers [g] and [i], and went on with the wait and
    the shutdown. *)
Definition reaches_shutdown (env : Env) (ctx : Context)
  (t : trace) (r : Res unit) : Prop :=
  exists t1 h g i st,
    t = t1 ++ tr_of (wait_and_shutdown env ctx h g i st) /\
    r = res_of (wait_and_shutdown env ctx h g i st) /\
    clean t1 /\
    servers t1 = [g; i] /\
    gateway_started t1 = present h.

(** The body of [Run] ended during the start-up: it panicked, blocked in the
    dial, or returned an error. *)
Definition fails_to_start (t : trace) (r : Res unit) : Prop :=
  is_Val r = false /\ startup_step t r.

Definition startup_then_shutdown (env : Env) (ctx : Context)
  (t : trace) (r : Res unit) : Prop :=
  reaches_shutdown env ctx t r \/ fails_to_start t r.

(** ** Configuration errors *)

(** The error lines 116 to 139 return, if any. *)
Definition authentication_error (env : Env)
  (authentication : option config.Authn) : option error :=
  match authentication with
  | Some a =>
      if config.Authn_Enabled a then
        if (config.Method a =? "preshared")%string
        then preshared_NewKeyAuthn env (config.Authn_Preshared a)
        else if (config.Method a =? "oidc")%string
             then oidc_NewOidcAuthn env (config.Authn_Oidc a)
             else Some (ErrString
                    ("unknown authentication method: '"
                     ++ config.Method a ++ "'")%string)
      else None
  | None => None
  end.

(** The error of reading the files of a TLS section, if it is enabled and
    they cannot be read. *)
Definition tls_files_error (env : Env) (tls : config.TLSConfig)
  : option error :=
  if config.TLS_Enabled tls
  then tls_LoadX509KeyPair env (config.CertPath tls) (config.KeyPath tls)
  else None.

(** The configuration error found before the servers are constructed: that
    of the authentication, else that of the TLS files of the RPC
    transport. *)
Definition configuration_error (env : Env) (srv : config.Server)
  (authentication : option config.Authn) : option error :=
  match authentication_error env authentication with
  | Some e => Some e
  | None => tls_files_error env (config.GRPC_TLSConfig (config.Srv_GRPC srv))
  end.

(** A configuration error in the wide sense: of the authentication, of the
    TLS files of the RPC transport, or of the TLS files of the HTTP
    gateway. *)
Definition some_configuration_error (env : Env) (srv : config.Server)
  (authentication : option config.Authn) : Prop :=
  authentication_error env authentication <> None \/
  tls_files_error env (config.GRPC_TLSConfig (config.Srv_GRPC srv)) <> None \/
  (config.HTTP_Enabled (config.Srv_HTTP srv) = true /\
   tls_files_error env (config.HTTP_TLSConfig (config.Srv_HTTP srv)) <> None).

(** [Run] returned an error and bound no socket. *)
Definition fails_before_binding (r : outcome * trace) : Prop :=
  (exists e, fst r = Returned (Some e)) /\
  Forall (fun e => kind_of e <> KListen) (snd r).

Definition nil_dereference : string :=
  "runtime error: invalid memory address or nil pointer dereference".

(** ** Inputs of the examples *)

(** An outside world in which everything succeeds, but for what the
    arguments say: the error of reading TLS files, the error of binding the
    invoker port, the latency of the dial, the time the HTTP connections
    need to drain at shutdown and the error of binding the profiler port. *)
Definition world (tls_files invoke_bind : option error)
  (latency : option Duration) (drain : Duration)
  (profiler_bind : option error) : Env :=
  {| clock0 := 0%N;
     preshared_NewKeyAuthn := fun _ => None;
     oidc_NewOidcAuthn := fun _ => None;
     tls_LoadX509KeyPair := fun _ _ => tls_files;
     client_cert_pool := fun _ => None;
     listen_grpc := None;
     listen_invoke := invoke_bind;
     dial_latency := latency;
     register_handler := fun _ => None;
     conn_close := None;
     http_drain := drain;
     http_close_listeners := None;
     pprof_bind := profiler_bind;
     pprof_serve := ErrServerClosed;
     http_bind := None;
     http_serve := ErrServerClosed;
     grpcServer_Serve := None;
     invokeServer_Serve := None;
     grpcServer_drain := Some 0%N;
     invokeServer_drain := Some 0%N |}.

Definition millisecond : Duration := 1000000%N.

Definition quiet : Env := world None None (Some millisecond) 0%N None.

Definition no_tls : config.TLSConfig :=
  {| config.TLS_Enabled := false; config.CertPath := ""; config.KeyPath := "" |}.

Definition tls_files : config.TLSConfig :=
  {| config.TLS_Enabled := true;
     config.CertPath := "cert.pem";
     config.KeyPath := "key.pem" |}.

Definition server_config (gateway : bool) (gateway_tls : config.TLSConfig)
  : config.Server :=
  {| config.RateLimit := 100;
     config.Srv_GRPC :=
       {| config.GRPC_Port := "3478"; config.GRPC_TLSConfig := no_tls |};
     config.Srv_HTTP :=
       {| config.HTTP_Enabled := gateway;
          config.HTTP_Port := "3476";
          config.HTTP_TLSConfig := gateway_tls;
          config.CORSAllowedOrigins := ["*"];
          config.CORSAllowedHeaders := ["*"] |} |}.

Definition invoker_config : config.Distributed :=
  {| config.Dst_Port := "5000" |}.

Definition profiler_config (enabled : bool) : config.Profiler :=
  {| config.Profiler_Enabled := enabled; config.Profiler_Port := "6060" |}.

Definition authn_config (enabled : bool) (method : string) : config.Authn :=
  {| config.Authn_Enabled := enabled;
     config.Method := method;
     config.Authn_Preshared := {| config.Keys := ["secret"] |};
     config.Authn_Oidc := {| config.Issuer := ""; config.Audience := "" |} |}.

Definition container : Container := NewContainer 100 101 102 103 104 105 106 107.

Definition local_invoker : Invoker := 200.

(** A context cancelled at the instant [t]. *)
Definition cancelled_at (t : N) : Context :=
  {| done_at := Some t; ctx_err := Canceled |}.

Definition missing_file : error :=
  ErrString "open cert.pem: no such file or directory".

Definition address_in_use (port : string) : error :=
  ErrString ("listen tcp :" ++ port ++ ": bind: address already in use")%string.

(** ** Failures to acquire a resource *)

(** When an acquisition failed, [Run] returned an error and left no
    listener open. *)
Definition releases_what_it_opened (r : outcome * trace) : Prop :=
  acquisition_failures (snd r) <> [] ->
  (exists e, fst r = Returned (Some e)) /\ leaked (snd r) = [].

(** ** What the examples observe *)

(** The calls of [Shutdown]: the context each got, the instant of the call
    and what it returned. *)
Definition shutdown_calls (t : trace) : list (Context * N * option error) :=
  flat_map (fun e => match e with
                     | EvShutdown _ c at_ r => [(c, at_, r)]
                     | _ => []
                     end) t.

(** The same outside world, but for what the profiler's server meets. *)
Definition with_profiler_outcome (env : Env) (bind_ : option error)
  (serve : error) : Env :=
  {| clock0 := clock0 env;
     preshared_NewKeyAuthn := preshared_NewKeyAuthn env;
     oidc_NewOidcAuthn := oidc_NewOidcAuthn env;
     tls_LoadX509KeyPair := tls_LoadX509KeyPair env;
     client_cert_pool := client_cert_pool env;
     listen_grpc := listen_grpc env;
     listen_invoke := listen_invoke env;
     dial_latency := dial_latency env;
     register_handler := register_handler env;
     conn_close := conn_close env;
     http_drain := http_drain env;
     http_close_listeners := http_close_listeners env;
     pprof_bind := bind_;
     pprof_serve := serve;
     http_bind := http_bind env;
     http_serve := http_serve env;
     grpcServer_Serve := grpcServer_Serve env;
     invokeServer_Serve := invokeServer_Serve env;
     grpcServer_drain := grpcServer_drain env;
     invokeServer_drain := invokeServer_drain env |}.

(** The RPC servers asked to stop gracefully. *)
Definition gracefully_stopped (t : trace) : list ptr :=
  flat_map (fun e => match e with
                     | EvGracefulStop s => [s]
                     | _ => []
                     end) t.

(** A call of [Shutdown] in the trace returned the error [e]. *)
Definition shutdown_failed_with (e : error) (t : trace) : Prop :=
  exists c at_, In (c, at_, Some e) (shutdown_calls t).

(** ** More of what a trace shows *)

(** The connections the gateway dialed, and those that were closed. *)
Definition dialed (t : trace) : list ptr :=
  flat_map (fun e => match e with
                     | EvDialContext _ _ _ (Ok conn) => [conn]
                     | _ => []
                     end) t.

Definition closed (t : trace) : list ptr :=
  flat_map (fun e => match e with
                     | EvConnClose conn _ => [conn]
                     | _ => []
                     end) t.

(** The contexts derived with a timeout, and those that were cancelled. *)
Definition derived (t : trace) : list Context :=
  flat_map (fun e => match e with
                     | EvWithTimeout _ _ _ child => [child]
                     | _ => []
                     end) t.

Definition cancelled (t : trace) : list Context :=
  flat_map (fun e => match e with
                     | EvCancel c => [c]
                     | _ => []
                     end) t.

(** The services registered on a server, in the order of registration. *)
Definition registered (t : trace) (server : ptr) : list Service :=
  flat_map (fun e => match e with
                     | EvRegister s svc =>
                         if Nat.eqb s server then [svc] else []
                     | _ => []
                     end) t.

(** The addresses bound, each with its listener. *)
Definition bound (t : trace) : list (string * ptr) :=
  flat_map (fun e => match e with
                     | EvListen address (Ok lis) => [(address, lis)]
                     | _ => []
                     end) t.

(** The RPC servers serving, each with the listener it serves on. *)
Definition serving (t : trace) : list (ptr * ptr) :=
  flat_map (fun e => match e with
                     | EvGo (go_grpcServer_Serve s lis)
                     | EvGo (go_invokeServer_Serve s lis) => [(s, lis)]
                     | _ => []
                     end) t.

(** The profiler goroutines started. *)
Definition profilers (t : trace) : list (string * http_Handler) :=
  flat_map (fun e => match e with
                     | EvGo (go_profiler port mux) => [(port, mux)]
                     | _ => []
                     end) t.

(** The gateway goroutines started, each with its server and the TLS
    section it serves with. *)
Definition gateways (t : trace) : list (http_Server * config.TLSConfig) :=
  flat_map (fun e => match e with
                     | EvGo (go_httpServer server tls) => [(server, tls)]
                     | _ => []
                     end) t.

(** The muxes of the gateway, each with its options. *)
Definition muxes (t : trace) : list (ptr * list ServeMuxOption) :=
  flat_map (fun e => match e with
                     | EvNewServeMux opts mux => [(mux, opts)]
                     | _ => []
                     end) t.

(** The registrations of gateway handlers: which, on which mux, over which
    connection, with which error. *)
Definition handlers (t : trace)
  : list (Handler * ptr * ptr * option error) :=
  flat_map (fun e => match e with
                     | EvRegisterHandler h mux conn r => [(h, mux, conn, r)]
                     | _ => []
                     end) t.

(** The dials: the context, the target and the options of each. *)
Definition dials (t : trace) : list (Context * string * list DialOption) :=
  flat_map (fun e => match e with
                     | EvDialContext c target opts _ => [(c, target, opts)]
                     | _ => []
                     end) t.

(** The transport credentials among server options. *)
Definition credentials_of (opts : list ServerOption)
  : list TransportCredentials :=
  flat_map (fun o => match o with
                     | Creds c => [c]
                     | _ => []
                     end) opts.

(** The transport credentials the configuration asks for: those of the RPC
    servers, and those of the gateway's connection to the primary server. *)
Definition rpc_credentials (srv : config.Server)
  : list TransportCredentials :=
  let tls := config.GRPC_TLSConfig (config.Srv_GRPC srv) in
  if config.TLS_Enabled tls
  then [ServerTLS (config.CertPath tls) (config.KeyPath tls)]
  else [].

Definition gateway_credentials (srv : config.Server) : TransportCredentials :=
  let tls := config.GRPC_TLSConfig (config.Srv_GRPC srv) in
  if config.TLS_Enabled tls
  then ClientTLS (config.CertPath tls) ""
  else Insecure.

(** ** The anatomy of a call *)

(** [t] and [r] are the trace and the result of [m] from some state. *)
Definition runs {A} (m : M A) (t : trace) (r : Res A) : Prop :=
  exists st, tr_of (m st) = t /\ res_of (m st) = r.

Section Anatomy.

Variable env : Env.
Variable s : Container.
Variable ctx : Context.
Variable srv : config.Server.
Variable dst : option config.Distributed.
Variable authentication : option config.Authn.
Variable profiler : option config.Profiler.
Variable localInvoker : Invoker.

(** The initialization went through, with the trace [t_i], and gave the
    options [opts]. *)
Definition configured (t_i : trace) (opts : list ServerOption) : Prop :=
  Forall (among init_kinds) t_i /\
  configuration_error env srv authentication = None /\
  credentials_of opts = rpc_credentials srv.

(** A call with a server configuration is a sequence of parts, each a run
    of its own, and ends in the first part that does not go on. *)
Inductive anatomy : trace -> Res unit -> Prop :=
| ends_in_configuration t e :
    Forall (among init_kinds) t ->
    configuration_error env srv authentication = Some e ->
    anatomy t (Return (Some e))
| ends_in_profiler t_i opts g i t_s t_p r_p :
    configured t_i opts ->
    runs (new_servers s localInvoker opts) t_s (Val (g, i)) ->
    runs (start_profiler profiler) t_p r_p ->
    is_Val r_p = false ->
    anatomy (t_i ++ t_s ++ t_p) (pass r_p)
| ends_in_bind t_i opts g i t_s t_p t_b r_b :
    configured t_i opts ->
    runs (new_servers s localInvoker opts) t_s (Val (g, i)) ->
    runs (start_profiler profiler) t_p (Val tt) ->
    runs (bind_and_serve env srv dst g i) t_b r_b ->
    is_Val r_b = false ->
    anatomy (t_i ++ t_s ++ t_p ++ t_b) (pass r_b)
| ends_in_gateway t_i opts g i t_s t_p t_b t_g r_g :
    configured t_i opts ->
    runs (new_servers s localInvoker opts) t_s (Val (g, i)) ->
    runs (start_profiler profiler) t_p (Val tt) ->
    runs (bind_and_serve env srv dst g i) t_b (Val tt) ->
    runs (start_gateway env ctx srv) t_g r_g ->
    is_Val r_g = false ->
    anatomy (t_i ++ t_s ++ t_p ++ t_b ++ t_g) (pass r_g)
| ends_in_shutdown t_i opts g i t_s t_p t_b t_g h t_w r_w :
    configured t_i opts ->
    runs (new_servers s localInvoker opts) t_s (Val (g, i)) ->
    runs (start_profiler profiler) t_p (Val tt) ->
    runs (bind_and_serve env srv dst g i) t_b (Val tt) ->
    runs (start_gateway env ctx srv) t_g (Val h) ->
    runs (wait_and_shutdown env ctx h g i) t_w r_w ->
    anatomy (t_i ++ t_s ++ t_p ++ t_b ++ t_g ++ t_w) r_w.

End Anatomy.

(** ** The services of the two servers *)

(** The API of the primary server, lines 159 to 167, and that of the invoker
    server, lines 171 to 175. *)
Definition primary_services (s : Container) : list Service :=
  [ PermissionServer (C_Invoker s);
    SchemaServer (SW s) (SR s);
    DataServer (DR s) (DW s) (SR s);
    TenancyServer (TR s) (TW s);
    WatchServer (W s) (DR s);
    HealthServer;
    ReflectionService ].

Definition invoker_services (localInvoker : Invoker) : list Service :=
  [ PermissionServer localInvoker; HealthServer; ReflectionService ].

(** ** The credentials of the servers *)

(** A server is constructed with the credentials of the RPC transport. *)
Definition carries_rpc_credentials (srv : config.Server) (e : event) : Prop :=
  match e with
  | EvNewServer _ opts => credentials_of opts = rpc_credentials srv
  | _ => True
  end.

(** ** The order of the shutdown *)

(** [srv.HTTP.Enabled], line 243. *)
Definition gateway_enabled (srv : option config.Server) : bool :=
  match srv with
  | Some srv_ => config.HTTP_Enabled (config.Srv_HTTP srv_)
  | None => false
  end.

(** An RPC server was told to serve. *)
Definition is_serving (t : trace) : bool :=
  match serving t with
  | [] => false
  | _ :: _ => true
  end.

(** The shutdown is due: the context of the call is done at some instant
    and the start-up went through, that is the RPC servers serve and the
    gateway is started if, and only if, it is enabled. *)
Definition shutdown_due (ctx : Context) (srv : option config.Server)
  (t : trace) : bool :=
  present (done_at ctx) && is_serving t
    && Bool.eqb (gateway_started t) (gateway_enabled srv).

(** The steps of the shutdown and how the call ends.  When the shutdown is
    due, the gateway, if there is one, is shut down first; its error ends
    the call, and otherwise the primary server is asked to stop, and once
    its calls in flight have finished the invoker server is, and once those
    of the invoker have finished [Run] returns nil; while a server has
    calls in flight that do not finish, the call of [Run] does not end.
    When the shutdown is not due, nothing is stopped. *)
Definition shutdown_in_order (env : Env) (ctx : Context)
  (srv : option config.Server) (r : outcome * trace) : Prop :=
  let t := snd r in
  let gateway := if gateway_started t then [StopHTTP] else [] in
  if shutdown_due ctx srv t then
    exists grpcServer invokeServer,
      servers t = [grpcServer; invokeServer] /\
      ((gateway_started t = true /\
        stops t = [StopHTTP] /\
        exists e, shutdown_failed_with e t /\ fst r = Returned (Some e)) \/
       (grpcServer_drain env = None /\
        stops t = gateway ++ [StopRPC grpcServer] /\
        fst r = Blocked) \/
       (grpcServer_drain env <> None /\
        stops t = gateway ++ [StopRPC grpcServer; StopRPC invokeServer] /\
        fst r = if present (invokeServer_drain env)
                then Returned None else Blocked))
  else stops t = [].

(** ** One admission-control domain, in every call *)

(** Without a server configuration the call panics on line 102 and
    constructs nothing.  With one, it constructs one limiter; when the
    configuration is in error it constructs no server, and otherwise it
    constructs two distinct servers from one and the same list of options,
    which puts every call, unary or streaming, under that limiter and no
    other. *)
Definition one_admission_domain (env : Env) (srv : option config.Server)
  (authentication : option config.Authn) (r : outcome * trace) : Prop :=
  match srv with
  | None =>
      fst r = Panicked nil_dereference /\
      limiters (snd r) = [] /\ servers (snd r) = []
  | Some srv_ =>
      exists limiter,
        limiters (snd r) = [limiter] /\
        match configuration_error env srv_ authentication with
        | Some _ => servers (snd r) = []
        | None =>
            exists grpcServer invokeServer opts,
              grpcServer <> invokeServer /\
              servers (snd r) = [grpcServer; invokeServer] /\
              server_options_of (snd r) = [opts; opts] /\
              admission_controlled limiter opts
        end
  end.

(** ** The JSON policy of the gateway that is started *)

(** One gateway is started, and the handler of its server is built on the
    one mux constructed, whose one marshaler, for every MIME type, has the
    JSON policy. *)
Definition gateway_serves_json_policy (t : trace) : Prop :=
  exists server tls o mux opts m,
    gateways t = [(server, tls)] /\
    Srv_Handler server = cors_Handler o mux /\
    muxes t = [(mux, opts)] /\
    marshalers opts = [(MIMEWildcard, m)] /\
    json_policy m.

(** ** The deferred calls *)




(** ** A server whose calls in flight never finish *)

(** The same outside world, but for what the graceful stops meet. *)
Definition with_drains (env : Env) (primary invoker : option Duration)
  : Env :=
  {| clock0 := clock0 env;
     preshared_NewKeyAuthn := preshared_NewKeyAuthn env;
     oidc_NewOidcAuthn := oidc_NewOidcAuthn env;
     tls_LoadX509KeyPair := tls_LoadX509KeyPair env;
     client_cert_pool := client_cert_pool env;
     listen_grpc := listen_grpc env;
     listen_invoke := listen_invoke env;
     dial_latency := dial_latency env;
     register_handler := register_handler env;
     conn_close := conn_close env;
     http_drain := http_drain env;
     http_close_listeners := http_close_listeners env;
     pprof_bind := pprof_bind env;
     pprof_serve := pprof_serve env;
     http_bind := http_bind env;
     http_serve := http_serve env;
     grpcServer_Serve := grpcServer_Serve env;
     invokeServer_Serve := invokeServer_Serve env;
     grpcServer_drain := primary;
     invokeServer_drain := invoker |}.

(** A stream is open on the primary server and never ends. *)
Definition open_stream : Env := with_drains quiet None (Some 0%N).

(** * Proofs *)

(** ** Rules of the program logic *)

Lemma ensures_bind {A B} (m : M A) (f : A -> M B)
  (Post1 : trace -> Res A -> Prop) (Post : trace -> Res B -> Prop) :
  ensures m Post1 ->
  (forall t1 a, Post1 t1 (Val a) ->
                ensures (f a) (fun t2 r => Post (t1 ++ t2) r)) ->
  (forall t1 r, Post1 t1 r -> is_Val r = false -> Post t1 (pass r)) ->
  ensures (bind m f) Post.
Proof.
  intros Hm Hf Hx st. unfold bind.
  specialize (Hm st). destruct (m st) as [[t1 st1] r1]. cbn in Hm.
  destruct r1 as [a | e | msg | ].
  - specialize (Hf t1 a Hm st1).
    destruct (f a st1) as [[t2 st2] r2]. exact Hf.
  - exact (Hx _ _ Hm eq_refl).
  - exact (Hx _ _ Hm eq_refl).
  - exact (Hx _ _ Hm eq_refl).
Qed.

Lemma ensures_weaken {A} (m : M A) (Post Post' : trace -> Res A -> Prop) :
  ensures m Post -> (forall t r, Post t r -> Post' t r) -> ensures m Post'.
Proof. intros H W st. apply W, H. Qed.

Lemma obeys_bind {A B} P (m : M A) (f : A -> M B) V V' X :
  obeys P m V X ->
  (forall a, V a -> obeys P (f a) V' X) ->
  obeys P (bind m f) V' X.
Proof.
  intros Hm Hf. eapply ensures_bind.
  - exact Hm.
  - intros t1 a [Ht Ha]. eapply ensures_weaken.
    + apply (Hf a Ha).
    + cbn. intros t r [Ht2 Hr]. split; [ apply Forall_app; auto | exact Hr ].
  - intros t1 r [Ht Hr] Hv. split; [ exact Ht | ].
    destruct r; cbn in *; auto; discriminate.
Qed.

Lemma obeys_ret {A} P (a : A) (V : A -> Prop) X : V a -> obeys P (ret a) V X.
Proof. intros H st. cbn. auto. Qed.

Lemma deref_silent {A} P (p : option A) X : obeys P (deref p) any X.
Proof. destruct p; intros st; cbn; split; auto; exact I. Qed.

Lemma obeys_weaken {A} (P P' : event -> Prop) (m : M A)
  (V V' : A -> Prop) (X X' : option error -> Prop) :
  obeys P m V X ->
  (forall e, P e -> P' e) -> (forall a, V a -> V' a) ->
  (forall e, X e -> X' e) ->
  obeys P' m V' X'.
Proof.
  intros H HP HV HX. eapply ensures_weaken; [ exact H | ].
  cbn. intros t r [Ht Hr]. split.
  - eapply Forall_impl; eauto.
  - destruct r; auto.
Qed.

(** Evaluation of a phase: the definitions are unfolded, the arithmetic of
    the clock and the comparison of strings are not. *)
Ltac norm :=
  cbv -[String.eqb N.leb N.add N.sub N.max N.eqb N.mul String.append Second
       clock0 preshared_NewKeyAuthn oidc_NewOidcAuthn tls_LoadX509KeyPair
       client_cert_pool listen_grpc listen_invoke dial_latency
       register_handler conn_close http_drain http_close_listeners
       pprof_bind pprof_serve http_bind http_serve grpcServer_Serve
       invokeServer_Serve grpcServer_drain invokeServer_drain].

(** One case distinction, on a scrutinee that hides no other. *)
Ltac run_step :=
  match goal with
  | |- context [match ?x with _ => _ end] =>
      lazymatch x with
      | context [match _ with _ => _ end] => fail
      | _ => first [ is_var x; destruct x | destruct x eqn:? ]
      end
  end; norm.

Ltac all_events :=
  repeat match goal with
         | |- Forall _ [] => apply Forall_nil
         | |- Forall _ (_ :: _) => apply Forall_cons
         end.

(** ** The events of each part of [Run] *)

Ltac phase :=
  let st := fresh "st" in
  intros st; norm; repeat run_step;
  (split; [ all_events; norm; auto 12 | ]); norm; try exact I; try congruence.

Section Alphabets.

Variable env : Env.

Lemma middleware_NewRateLimiter_kinds rate :
  obeys (among init_kinds) (middleware_NewRateLimiter rate) any not_nil.
Proof. phase. Qed.

Lemma configure_authentication_kinds authentication u s :
  obeys (among init_kinds)
    (configure_authentication env authentication u s) any not_nil.
Proof. destruct authentication as [[en method pre oi]|]; phase. Qed.

Lemma server_options_kinds srv u s :
  obeys (among init_kinds) (server_options env srv u s) any not_nil.
Proof. destruct srv as [rl [gp [ge gc gk]] http]; phase. Qed.

Lemma new_servers_kinds s li opts :
  obeys (among servers_kinds) (new_servers s li opts) any not_nil.
Proof. phase. Qed.

Lemma start_profiler_kinds profiler :
  obeys (among profiler_kinds) (start_profiler profiler) any not_nil.
Proof. destruct profiler as [[en port]|]; phase. Qed.

Lemma bind_and_serve_kinds srv dst g i :
  obeys (among bind_kinds) (bind_and_serve env srv dst g i) any not_nil.
Proof. destruct dst as [[port]|]; phase. Qed.

Lemma start_gateway_kinds ctx srv :
  obeys (among gateway_kinds) (start_gateway env ctx srv) any not_nil.
Proof.
  destruct srv as [rl [gp [ge gc gk]] [he hp htls ho hh]], ctx as [cd ce].
  phase.
Qed.

Lemma wait_and_shutdown_kinds ctx h g i :
  obeys (among shutdown_kinds) (wait_and_shutdown env ctx h g i) any any.
Proof. destruct ctx as [cd ce], h as [server|]; phase. Qed.

Lemma run_defers_kinds ds : Forall (among deferred_kinds) (run_defers env ds).
Proof.
  induction ds as [|[c|conn] ds IH]; cbn.
  - constructor.
  - constructor; [ cbv; auto | exact IH ].
  - constructor; [ cbv; auto | ].
    apply Forall_app. split; [ | exact IH ].
    destruct (conn_close env); all_events; cbv; auto.
Qed.

End Alphabets.

Lemma among_incl (ks ks' : list kind) (e : event) :
  incl ks ks' -> among ks e -> among ks' e.
Proof. unfold among. intros H. apply H. Qed.

Lemma obeys_kinds {A} (P : event -> Prop) ks (m : M A) V X :
  (forall e, among ks e -> P e) -> obeys (among ks) m V X -> obeys P m V any.
Proof.
  intros HP H. eapply obeys_weaken; [ exact H | exact HP | auto | ].
  unfold any. auto.
Qed.

(** A property of events is carried from the parts of [Run] to the call:
    it is enough to show it of each part, and for a part that cannot break
    it, of the kinds of events the part has. *)
Section Parts.

Variable env : Env.
Variable P : event -> Prop.

Hypothesis P_profiler : forall e, among profiler_kinds e -> P e.
Hypothesis P_bind : forall e, among bind_kinds e -> P e.
Hypothesis P_gateway :
  forall ctx srv, obeys P (start_gateway env ctx srv) any any.
Hypothesis P_shutdown :
  forall ctx h g i, obeys P (wait_and_shutdown env ctx h g i) any any.
Hypothesis P_deferred : forall e, among deferred_kinds e -> P e.

(** What follows the construction of the servers, lines 177 to 352. *)
Lemma later_phases ctx srv dst profiler g i :
  obeys P
    (start_profiler profiler ;;
     bind_and_serve env srv dst g i ;;
     httpServer <- start_gateway env ctx srv ;;
     wait_and_shutdown env ctx httpServer g i)
    any any.
Proof.
  eapply obeys_bind.
  { eapply obeys_kinds; [ exact P_profiler | apply start_profiler_kinds ]. }
  intros _ _. eapply obeys_bind.
  { eapply obeys_kinds; [ exact P_bind | apply bind_and_serve_kinds ]. }
  intros _ _. eapply obeys_bind; [ apply P_gateway | ].
  intros h _. apply P_shutdown.
Qed.

(** From the body to the call: the deferred calls add their events. *)
Lemma Run_events s ctx srv dst authentication profiler localInvoker :
  obeys P
    (Run_body env s ctx srv dst authentication profiler localInvoker)
    any any ->
  Forall P (snd (Run env s ctx srv dst authentication profiler localInvoker)).
Proof.
  intros H. unfold Run. specialize (H (initial env)).
  destruct (Run_body _ _ _ _ _ _ _ _ _) as [[t st] r].
  destruct H as [Ht _]. cbn in Ht.
  assert (Hd : Forall P (run_defers env (defers st))).
  { eapply Forall_impl; [ | apply run_defers_kinds ]. exact P_deferred. }
  destruct r; cbn; try apply Forall_app; auto.
Qed.

Hypothesis P_early : forall e, among early_kinds e -> P e.

Lemma Run_body_parts s ctx srv dst authentication profiler localInvoker :
  obeys P
    (Run_body env s ctx srv dst authentication profiler localInvoker)
    any any.
Proof.
  unfold Run_body.
  eapply obeys_bind with (V := any); [ apply deref_silent | ].
  assert (P_init : forall e, among init_kinds e -> P e).
  { intros e He. apply P_early. eapply among_incl; [ | exact He ].
    unfold early_kinds. auto with datatypes. }
  assert (P_servers : forall e, among servers_kinds e -> P e).
  { intros e He. apply P_early. eapply among_incl; [ | exact He ].
    unfold early_kinds. auto with datatypes. }
  intros srv_ _. eapply obeys_bind with (V := any).
  { eapply obeys_kinds; [ exact P_init | ].
    apply middleware_NewRateLimiter_kinds. }
  intros limiter _. eapply obeys_bind with (V := any).
  { eapply obeys_kinds; [ exact P_init | ].
    apply configure_authentication_kinds. }
  intros chains _. eapply obeys_bind with (V := any).
  { eapply obeys_kinds; [ exact P_init | apply server_options_kinds ]. }
  intros opts _. eapply obeys_bind with (V := any).
  { eapply obeys_kinds; [ exact P_servers | apply new_servers_kinds ]. }
  intros servers_ _. apply later_phases.
Qed.

Lemma Run_parts s ctx srv dst authentication profiler localInvoker :
  Forall P (snd (Run env s ctx srv dst authentication profiler localInvoker)).
Proof. apply Run_events, Run_body_parts. Qed.

End Parts.

Ltac kinds_only :=
  let e := fresh "e" in
  let H := fresh "H" in
  intros e H; destruct e as [| | | | | | [] | | | | | | | | | | | | |];
  cbv in H; cbn; try exact I; try (intuition discriminate).

(** ** The chains reach the servers in the fixed order *)

Lemma unary_chain_options u s creds :
  unary_chain
    ([ChainUnaryInterceptor u; ChainStreamInterceptor s] ++ map Creds creds)
  = u.
Proof.
  cbn. induction creds as [|c creds IH]; cbn; [ apply app_nil_r | exact IH ].
Qed.

Lemma stream_chain_options u s creds :
  stream_chain
    ([ChainUnaryInterceptor u; ChainStreamInterceptor s] ++ map Creds creds)
  = s.
Proof.
  cbn. induction creds as [|c creds IH]; cbn; [ apply app_nil_r | exact IH ].
Qed.

Section Chains.

Variable env : Env.
Variable authentication : option config.Authn.

Lemma configure_authentication_chains limiter :
  obeys (built_in_order authentication)
    (configure_authentication env authentication
       [grpcValidator_Unary; grpcRecovery_Unary; ratelimit_Unary limiter]
       [grpcValidator_Stream; grpcRecovery_Stream; ratelimit_Stream limiter])
    (fun chains =>
       chain_pair_in_order authentication (fst chains) (snd chains))
    any.
Proof.
  unfold chain_pair_in_order, authentication_stages.
  destruct authentication as [[en method pre oi]|]; phase.
  all: eexists _, _; repeat split; eauto.
Qed.

Lemma chains_of_options u s creds :
  chain_pair_in_order authentication u s ->
  chains_in_order authentication
    ([ChainUnaryInterceptor u; ChainStreamInterceptor s] ++ map Creds creds).
Proof.
  intros H. unfold chains_in_order.
  rewrite unary_chain_options, stream_chain_options. exact H.
Qed.

Lemma server_options_chains srv u s :
  chain_pair_in_order authentication u s ->
  obeys (built_in_order authentication)
    (server_options env srv u s)
    (chains_in_order authentication)
    any.
Proof.
  intros H st. unfold server_options.
  destruct (config.TLS_Enabled _).
  - unfold credentials_NewServerTLSFromFile.
    destruct (tls_LoadX509KeyPair _ _ _); cbn.
    + split; [ all_events; exact I | exact I ].
    + split; [ all_events; exact I | ].
      apply (chains_of_options [ServerTLS _ _] H).
  - cbn. split; [ constructor | ].
    apply (chains_of_options [] H).
Qed.

Lemma new_servers_chains s localInvoker opts :
  chains_in_order authentication opts ->
  obeys (built_in_order authentication)
    (new_servers s localInvoker opts) any any.
Proof.
  intros H st. cbn. split; [ all_events; cbn; auto | exact I ].
Qed.

End Chains.

(** The body of [Run] hands the chains to the servers in the fixed
    order. *)
Lemma Run_body_chains env s ctx srv dst authentication profiler localInvoker :
  obeys (built_in_order authentication)
    (Run_body env s ctx srv dst authentication profiler localInvoker)
    any any.
Proof.
  unfold Run_body.
  eapply obeys_bind with (V := any).
  { apply deref_silent. }
  intros srv_ _. eapply obeys_bind with (V := any).
  { intros st. cbn. split; [ all_events; exact I | exact I ]. }
  intros limiter _. eapply obeys_bind.
  { apply configure_authentication_chains. }
  intros chains Hc. eapply obeys_bind.
  { apply server_options_chains. exact Hc. }
  intros opts Ho. eapply obeys_bind.
  { apply new_servers_chains. exact Ho. }
  intros servers_ _. apply later_phases; try kinds_only.
  - intros c srv'. eapply obeys_kinds; [ | apply start_gateway_kinds ].
    kinds_only.
  - intros c h g i. eapply obeys_kinds; [ | apply wait_and_shutdown_kinds ].
    kinds_only.
Qed.

(** C4.  For every configuration and every environment, each RPC server
    [Run] constructs gets its two interceptor chains in the fixed order:
    request validation, panic recovery, rate limiting, and then, when
    authentication is enabled with a recognized method, the authentication
    interceptor of that method, last; the unary chain and the streaming
    chain have the same stages at the same places. *)
Theorem interceptor_chains_in_fixed_order
  env s ctx srv dst authentication profiler localInvoker :
  Forall (built_in_order authentication)
    (snd (Run env s ctx srv dst authentication profiler localInvoker)).
Proof.
  apply Run_events.
  - kinds_only.
  - apply Run_body_chains.
Qed.

(** ** One limiter for both servers *)

Lemma flat_map_silent {A B} (f : A -> list B) (l : list A) :
  Forall (fun a => f a = []) l -> flat_map f l = [].
Proof.
  induction 1 as [|a l Ha _ IH]; cbn; [ reflexivity | ].
  rewrite Ha, IH. reflexivity.
Qed.

Lemma limiters_silent ks t :
  Forall (among ks) t -> ~ In KNewRateLimiter ks -> limiters t = [].
Proof.
  intros H Hk. apply flat_map_silent.
  eapply Forall_impl; [ | exact H ].
  intros [] He; cbn; try reflexivity. contradiction.
Qed.

Lemma server_options_silent ks t :
  Forall (among ks) t -> ~ In KNewServer ks -> server_options_of t = [].
Proof.
  intros H Hk. apply flat_map_silent.
  eapply Forall_impl; [ | exact H ].
  intros [] He; cbn; try reflexivity. contradiction.
Qed.

Ltac not_in_kinds := cbv; intuition discriminate.

Section OneLimiter.

Variable env : Env.
Variable limiter : Limiter.

Lemma configure_authentication_limiter authentication :
  obeys (among [KNewKeyAuthn; KNewOidcAuthn])
    (configure_authentication env authentication
       [grpcValidator_Unary; grpcRecovery_Unary; ratelimit_Unary limiter]
       [grpcValidator_Stream; grpcRecovery_Stream; ratelimit_Stream limiter])
    (fun chains =>
       unary_limiters (fst chains) = [limiter] /\
       stream_limiters (snd chains) = [limiter])
    not_nil.
Proof. destruct authentication as [[en method pre oi]|]; phase; auto. Qed.

Lemma server_options_limiter srv u s :
  unary_limiters u = [limiter] /\ stream_limiters s = [limiter] ->
  obeys (among [KNewServerTLSFromFile])
    (server_options env srv u s)
    (admission_controlled limiter)
    not_nil.
Proof.
  intros [Hu Hs] st. unfold server_options, admission_controlled.
  destruct (config.TLS_Enabled _).
  - unfold credentials_NewServerTLSFromFile.
    destruct (tls_LoadX509KeyPair _ _ _); cbn.
    + split; [ all_events; cbv; auto | cbv; congruence ].
    + split; [ all_events; cbv; auto | ].
      rewrite !app_nil_r. auto.
  - cbn. split; [ constructor | ]. rewrite !app_nil_r. auto.
Qed.

(** After the limiter is made: no other is, and the servers are built
    from one list of options. *)
Lemma servers_share_options s ctx srv dst authentication profiler li :
  ensures
    (chains <- configure_authentication env authentication
                 [grpcValidator_Unary; grpcRecovery_Unary;
                  ratelimit_Unary limiter]
                 [grpcValidator_Stream; grpcRecovery_Stream;
                  ratelimit_Stream limiter] ;;
     opts <- server_options env srv (fst chains) (snd chains) ;;
     servers <- new_servers s li opts ;;
     start_profiler profiler ;;
     bind_and_serve env srv dst (fst servers) (snd servers) ;;
     httpServer <- start_gateway env ctx srv ;;
     wait_and_shutdown env ctx httpServer (fst servers) (snd servers))
    (fun t _ =>
       limiters t = [] /\
       (server_options_of t = [] \/
        exists opts, server_options_of t = [opts; opts] /\
                     admission_controlled limiter opts)).
Proof.
  eapply ensures_bind.
  { apply configure_authentication_limiter. }
  2: { cbn. intros t r [Ht _] _. split; [ | left ].
       - apply (limiters_silent Ht). not_in_kinds.
       - apply (server_options_silent Ht). not_in_kinds. }
  cbn. intros t1 chains [Ht1 Hc]. eapply ensures_bind.
  { apply server_options_limiter. exact Hc. }
  2: { cbn. intros t r [Ht _] _. unfold limiters, server_options_of.
       rewrite !flat_map_app. fold (limiters t1) (limiters t).
       fold (server_options_of t1) (server_options_of t).
       rewrite (limiters_silent Ht1) by not_in_kinds.
       rewrite (limiters_silent Ht) by not_in_kinds.
       rewrite (server_options_silent Ht1) by not_in_kinds.
       rewrite (server_options_silent Ht) by not_in_kinds.
       auto. }
  cbn. intros t2 opts [Ht2 Ho]. eapply ensures_bind.
  { intros st. cbn.
    instantiate (1 := fun t r =>
      limiters t = [] /\ server_options_of t = [opts; opts] /\
      is_Val r = true).
    cbn. auto. }
  2: { intros t r (_ & _ & Hv) Hx. congruence. }
  cbn. intros t3 servers_ (Hl3 & Ho3 & _).
  eapply ensures_weaken.
  { apply later_phases with (P := among later_kinds).
    - intros e. apply among_incl. unfold later_kinds. auto with datatypes.
    - intros e. apply among_incl. unfold later_kinds. auto with datatypes.
    - intros c srv'. eapply obeys_kinds; [ | apply start_gateway_kinds ].
      intros e. apply among_incl. unfold later_kinds. auto 6 with datatypes.
    - intros c h g i.
      eapply obeys_kinds; [ | apply wait_and_shutdown_kinds ].
      intros e. apply among_incl. unfold later_kinds. auto 8 with datatypes. }
  cbn. intros t4 r [Ht4 _].
  unfold limiters, server_options_of. rewrite !flat_map_app.
  fold (limiters t1) (limiters t2) (limiters t3) (limiters t4).
  fold (server_options_of t1) (server_options_of t2)
       (server_options_of t3) (server_options_of t4).
  rewrite (limiters_silent Ht1) by not_in_kinds.
  rewrite (limiters_silent Ht2) by not_in_kinds.
  rewrite (limiters_silent Ht4) by not_in_kinds.
  rewrite (server_options_silent Ht1) by not_in_kinds.
  rewrite (server_options_silent Ht2) by not_in_kinds.
  rewrite (server_options_silent Ht4) by not_in_kinds.
  rewrite Hl3, Ho3. cbn. split; [ reflexivity | right; eauto ].
Qed.

End OneLimiter.

Lemma limiters_app t1 t2 : limiters (t1 ++ t2) = limiters t1 ++ limiters t2.
Proof. apply flat_map_app. Qed.

Lemma server_options_of_app t1 t2 :
  server_options_of (t1 ++ t2) = server_options_of t1 ++ server_options_of t2.
Proof. apply flat_map_app. Qed.

(** With a server configuration to read the rate from, a call constructs
    one rate limiter, and the options of the servers it constructs, when it
    gets that far, are one list twice, under that limiter. *)
Lemma Run_shares_limiter
  env s ctx srv dst authentication profiler localInvoker :
  shares_limiter
    (snd (Run env s ctx (Some srv) dst authentication profiler localInvoker)).
Proof.
  assert (B : ensures
    (Run_body env s ctx (Some srv) dst authentication profiler localInvoker)
    (fun t _ => shares_limiter t)).
  { unfold Run_body. eapply ensures_bind.
    { intros st. cbn.
      instantiate (1 := fun t r => t = [] /\ is_Val r = true). cbn. auto. }
    2: { intros t r [_ Hv] Hx. congruence. }
    cbn. intros t0 srv_ [-> _]. eapply ensures_bind.
    { intros st. cbn.
      instantiate (1 := fun t r =>
        (exists limiter, t = [EvNewRateLimiter (config.RateLimit srv_) limiter]
                         /\ r = Val limiter) /\ is_Val r = true).
      cbn. eauto. }
    2: { intros t r [_ Hv] Hx. congruence. }
    cbn. intros t1 limiter [(l & -> & [= <-]) _].
    eapply ensures_weaken; [ apply servers_share_options | ].
    cbn. intros t _ [Hl Ho]. exists limiter. split.
    - change (limiter :: limiters t = [limiter]). rewrite Hl. reflexivity.
    - exact Ho. }
  unfold Run. specialize (B (initial env)).
  destruct (Run_body _ _ _ _ _ _ _ _ _) as [[t st] r]. cbn in B.
  destruct B as (limiter & Hl & Ho).
  pose proof (run_defers_kinds env (defers st)) as Hd.
  assert (E : shares_limiter (t ++ run_defers env (defers st))).
  { exists limiter. rewrite limiters_app, server_options_of_app.
    rewrite (limiters_silent Hd) by not_in_kinds.
    rewrite (server_options_silent Hd) by not_in_kinds.
    rewrite !app_nil_r. auto. }
  destruct r; cbn; auto. exists limiter. auto.
Qed.

(** ** The JSON policy of the gateway *)

Lemma start_gateway_json env ctx srv :
  obeys gateway_json_policy (start_gateway env ctx srv) any any.
Proof.
  destruct srv as [rl [gp [ge gc gk]] [he hp htls ho hh]], ctx as [cd ce].
  unfold gateway_json_policy, json_policy.
  intros st; norm; repeat run_step.
  all: split; [ all_events; try exact I | exact I ].
  all: eexists; split; reflexivity || (repeat split; reflexivity).
Qed.

(** Every mux constructed in a call is configured with one marshaler,
    registered for every MIME type, that keeps the original proto field
    names, emits the fields with default or empty values, and discards the
    unknown fields of a request. *)
Lemma Run_muxes_json_policy
  env s ctx srv dst authentication profiler localInvoker :
  Forall gateway_json_policy
    (snd (Run env s ctx srv dst authentication profiler localInvoker)).
Proof.
  apply Run_parts; try kinds_only.
  - intros c srv'. apply start_gateway_json.
  - intros c h g i. eapply obeys_kinds; [ | apply wait_and_shutdown_kinds ].
    kinds_only.
Qed.

(** ** The grace period of the HTTP shutdown *)

Lemma wait_and_shutdown_grace env ctx h g i :
  obeys shutdown_grace_spent (wait_and_shutdown env ctx h g i) any any.
Proof.
  destruct ctx as [[stop|] ce], h as [server|].
  all: unfold shutdown_grace_spent, remaining.
  all: intros st; norm; repeat run_step.
  all: split; [ all_events; try exact I | exact I ].
  all: try (f_equal; lia).
  all: try match goal with
         | H : (_ <=? _)%N = false |- _ => apply N.leb_gt in H; lia
         end.
Qed.

(** ** Start-up, then shutdown *)

Lemma servers_app t1 t2 : servers (t1 ++ t2) = servers t1 ++ servers t2.
Proof. apply flat_map_app. Qed.

Lemma stops_app t1 t2 : stops (t1 ++ t2) = stops t1 ++ stops t2.
Proof. apply flat_map_app. Qed.

Lemma gateway_started_app t1 t2 :
  gateway_started (t1 ++ t2) = gateway_started t1 || gateway_started t2.
Proof. apply existsb_app. Qed.

Lemma servers_silent ks t :
  Forall (among ks) t -> ~ In KNewServer ks -> servers t = [].
Proof.
  intros H Hk. apply flat_map_silent.
  eapply Forall_impl; [ | exact H ].
  intros [] He; cbn; try reflexivity. contradiction.
Qed.

Lemma stops_silent ks t :
  Forall (among ks) t -> ~ In KShutdown ks -> ~ In KGracefulStop ks ->
  stops t = [].
Proof.
  intros H Hk Hk'. apply flat_map_silent.
  eapply Forall_impl; [ | exact H ].
  intros [] He; cbn; try reflexivity; contradiction.
Qed.

Lemma gateway_silent ks t :
  Forall (among ks) t -> ~ In KGoHTTP ks -> gateway_started t = false.
Proof.
  intros H Hk. unfold gateway_started.
  induction H as [|e t He _ IH]; cbn [existsb]; [ reflexivity | ].
  rewrite IH, orb_false_r.
  destruct e as [| | | | | | [] | | | | | | | | | | | | |];
    try reflexivity. contradiction.
Qed.

Lemma acquisition_failures_app t1 t2 :
  acquisition_failures (t1 ++ t2)
  = acquisition_failures t1 ++ acquisition_failures t2.
Proof. apply flat_map_app. Qed.

Lemma acquisition_failures_silent ks t :
  Forall (among ks) t -> ~ In KListen ks -> ~ In KDialContext ks ->
  acquisition_failures t = [].
Proof.
  intros H Hk Hk'. apply flat_map_silent.
  eapply Forall_impl; [ | exact H ].
  intros [] He; cbn; try reflexivity; contradiction.
Qed.

Lemma among_startup ks t :
  Forall (among ks) t -> incl ks startup_kinds ->
  Forall (among startup_kinds) t.
Proof.
  intros H Hi. eapply Forall_impl; [ | exact H ].
  intros e. apply among_incl. exact Hi.
Qed.

Ltac incl_kinds := cbv; intuition (subst; auto 30).

Lemma clean_nil : clean [].
Proof. split; [ constructor | reflexivity ]. Qed.

Lemma clean_app t1 t2 : clean t1 -> clean t2 -> clean (t1 ++ t2).
Proof.
  intros [H1 F1] [H2 F2]. split.
  - apply Forall_app. auto.
  - rewrite acquisition_failures_app, F1, F2. reflexivity.
Qed.

Lemma clean_stops t : clean t -> stops t = [].
Proof. intros [H _]. apply (stops_silent H); not_in_kinds. Qed.

(** A part of the start-up that neither binds nor dials. *)
Lemma startup_step_of_kinds {A} ks (m : M A) V :
  obeys (among ks) m V not_nil ->
  incl ks startup_kinds -> ~ In KListen ks -> ~ In KDialContext ks ->
  ensures m (fun t r =>
    startup_step t r /\ Forall (among ks) t /\
    match r with Val a => V a | _ => True end).
Proof.
  intros H Hi Hl Hd st. destruct (H st) as [Ht Hr].
  pose proof (acquisition_failures_silent Ht Hl Hd) as Hf.
  split; [ split | split; [ exact Ht | ] ].
  - eapply among_startup; eauto.
  - destruct (res_of (m st)) as [a | [e|] | msg | ]; auto.
  - destruct (res_of (m st)); auto.
Qed.

Lemma startup_step_clean {A} t (a : A) : startup_step t (Val a) -> clean t.
Proof. intros [H F]. split; assumption. Qed.

(** The binds, lines 211 to 221. *)
Lemma bind_and_serve_step env srv dst g i :
  ensures (bind_and_serve env srv dst g i)
    (fun t r => startup_step t r /\ Forall (among bind_kinds) t).
Proof.
  intros st.
  destruct (bind_and_serve_kinds env srv dst g i st) as [H _].
  split; [ split | exact H ].
  - eapply among_startup; [ exact H | incl_kinds ].
  - clear H. revert st. destruct dst as [[port]|].
    all: intros st; norm; repeat run_step; auto.
Qed.

(** The gateway, lines 243 to 330: the dial is the acquisition; the gateway
    is started exactly when a server is handed back. *)
Lemma start_gateway_step env ctx srv :
  ensures (start_gateway env ctx srv)
    (fun t r =>
       startup_step t r /\
       Forall (among gateway_kinds) t /\
       match r with
       | Val h => gateway_started t = present h
       | _ => True
       end).
Proof.
  intros st.
  destruct (start_gateway_kinds env ctx srv st) as [H _].
  split; [ split | split; [ exact H | ] ]; [ | clear H | clear H ].
  - eapply among_startup; [ exact H | incl_kinds ].
  - revert st.
    destruct srv as [rl [gp [ge gc gk]] [he hp htls ho hh]], ctx as [cd ce].
    intros st; norm; repeat run_step; auto.
  - revert st.
    destruct srv as [rl [gp [ge gc gk]] [he hp htls ho hh]], ctx as [cd ce].
    intros st; norm; repeat run_step; exact I || reflexivity.
Qed.

Section Structure.

Variable env : Env.
Variable ctx : Context.

Lemma exit_during_startup {A} pre t1 (r : Res A) :
  clean pre -> startup_step t1 r -> is_Val r = false ->
  startup_then_shutdown env ctx (pre ++ t1) (pass r).
Proof.
  intros [Hpre Fpre] [Ht Hr] Hv. right. split; [ | split ].
  - destruct r; cbn in *; congruence.
  - apply Forall_app. auto.
  - rewrite acquisition_failures_app, Fpre. cbn [app].
    destruct r as [a | [e|] | msg | ]; cbn in *; auto.
Qed.

(** [Run] is its start-up, and when that neither panics nor returns an
    error, its wait and shutdown. *)
Lemma Run_body_structure s srv dst authentication profiler localInvoker :
  ensures (Run_body env s ctx srv dst authentication profiler localInvoker)
    (startup_then_shutdown env ctx).
Proof.
  unfold Run_body.
  eapply ensures_bind with (Post1 := fun t r =>
    t = [] /\ match r with Return _ | Block => False | _ => True end).
  { destruct srv; intros st; cbn; auto. }
  2: { intros t r [-> Hr] Hv.
       apply (@exit_during_startup _ [] [] r); auto using clean_nil.
       split; [ constructor | ].
       destruct r as [a | e | msg | ]; cbn in *; auto; contradiction. }
  intros ? srv_ [-> _]. cbn [app].
  eapply ensures_bind.
  { apply (startup_step_of_kinds (middleware_NewRateLimiter_kinds _));
      [ incl_kinds | not_in_kinds | not_in_kinds ]. }
  2: { intros t r (Hs & _) Hv.
       apply (@exit_during_startup _ [] t r); auto using clean_nil. }
  intros t0 limiter (S0 & H0 & _). apply startup_step_clean in S0.
  eapply ensures_bind.
  { apply (startup_step_of_kinds (configure_authentication_kinds env _ _ _));
      [ incl_kinds | not_in_kinds | not_in_kinds ]. }
  2: { intros t r (Hs & _) Hv. apply exit_during_startup; auto. }
  intros t1 chains (S1 & H1 & _). apply startup_step_clean in S1.
  pose proof (clean_app S0 S1) as C1.
  eapply ensures_bind.
  { apply (startup_step_of_kinds (server_options_kinds env _ _ _));
      [ incl_kinds | not_in_kinds | not_in_kinds ]. }
  2: { intros t r (Hs & _) Hv. rewrite app_assoc.
       apply exit_during_startup; auto. }
  intros t2 opts (S2 & H2 & _). apply startup_step_clean in S2.
  pose proof (clean_app C1 S2) as C2.
  eapply ensures_bind with (Post1 := fun t r =>
    Forall (among servers_kinds) t /\
    match r with
    | Val (g, i) => servers t = [g; i]
    | _ => False
    end).
  { intros st. cbn. split; [ all_events; cbv; auto | reflexivity ]. }
  2: { intros t [[]| | |] [_ []] Hv. discriminate. }
  intros t3 [g i] [H3 Hs3]. cbn [fst snd].
  assert (S3 : clean t3).
  { split; [ eapply among_startup; eauto; incl_kinds | ].
    apply (acquisition_failures_silent H3); not_in_kinds. }
  pose proof (clean_app C2 S3) as C3.
  eapply ensures_bind.
  { apply (startup_step_of_kinds (start_profiler_kinds _));
      [ incl_kinds | not_in_kinds | not_in_kinds ]. }
  2: { intros t r (Hs & _) Hv. rewrite !app_assoc.
       apply exit_during_startup; auto. }
  intros t4 u4 (S4 & H4 & _). apply startup_step_clean in S4.
  pose proof (clean_app C3 S4) as C4.
  eapply ensures_bind; [ apply bind_and_serve_step | | ].
  2: { intros t r [Hs _] Hv. rewrite !app_assoc.
       apply exit_during_startup; auto. }
  intros t5 u5 [S5 H5]. apply startup_step_clean in S5.
  pose proof (clean_app C4 S5) as C5.
  eapply ensures_bind; [ apply start_gateway_step | | ].
  2: { intros t r [Hs _] Hv. rewrite !app_assoc.
       apply exit_during_startup; auto. }
  intros t6 h (S6 & H6 & Hg6) st. apply startup_step_clean in S6.
  pose proof (clean_app C5 S6) as C6.
  left. exists ((((((t0 ++ t1) ++ t2) ++ t3) ++ t4) ++ t5) ++ t6), h, g, i, st.
  repeat split; try apply C6.
  - rewrite <- !app_assoc. reflexivity.
  - rewrite !servers_app, Hs3.
    rewrite (servers_silent H0), (servers_silent H1), (servers_silent H2),
      (servers_silent H4), (servers_silent H5), (servers_silent H6)
      by not_in_kinds.
    reflexivity.
  - rewrite !gateway_started_app, Hg6.
    rewrite (gateway_silent H0), (gateway_silent H1), (gateway_silent H2),
      (gateway_silent H3), (gateway_silent H4), (gateway_silent H5)
      by not_in_kinds.
    reflexivity.
Qed.

End Structure.

(** ** The grace period, in every call *)

Lemma shutdown_without_grace
  env s ctx srv dst authentication profiler localInvoker :
  Forall shutdown_grace_spent
    (snd (Run env s ctx srv dst authentication profiler localInvoker)).
Proof.
  apply Run_parts; try kinds_only.
  - intros c srv'. eapply obeys_kinds; [ | apply start_gateway_kinds ].
    kinds_only.
  - intros c h g i. apply wait_and_shutdown_grace.
Qed.

(** ** Configuration errors end the call before anything is bound *)

Lemma configuration_error_ends_run
  env s ctx srv dst authentication profiler localInvoker e :
  configuration_error env srv authentication = Some e ->
  exists t,
    Run env s ctx (Some srv) dst authentication profiler localInvoker
      = (Returned (Some e), t) /\
    Forall (among init_kinds) t.
Proof.
  unfold configuration_error, authentication_error, tls_files_error.
  destruct srv as [rl [gp [ge gc gk]] http].
  destruct authentication as [[en method pre oi]|]; cbn.
  1: destruct en; [ destruct (method =? "preshared")%string eqn:Hp;
                   [ | destruct (method =? "oidc")%string eqn:Ho ] | ].
  1: destruct (preshared_NewKeyAuthn env pre) eqn:Hk.
  3: destruct (oidc_NewOidcAuthn env oi) eqn:Hk.
  all: try (destruct ge; [ destruct (tls_LoadX509KeyPair env gc gk) eqn:Ht | ]).
  all: intros [= <-] || (intros; discriminate).
  all: eexists; split;
    [ norm; rewrite ?Hp, ?Ho, ?Hk, ?Ht; norm; rewrite ?Ht; reflexivity
    | all_events; cbv; auto ].
Qed.

Lemma opened_silent ks t :
  Forall (among ks) t -> ~ In KListen ks -> opened t = [].
Proof.
  intros H Hk. apply flat_map_silent.
  eapply Forall_impl; [ | exact H ].
  intros [] He; cbn; try reflexivity. contradiction.
Qed.

Lemma started_silent ks t :
  Forall (among ks) t ->
  ~ In KGoProfiler ks -> ~ In KGoGrpc ks -> ~ In KGoInvoke ks ->
  ~ In KGoHTTP ks -> started t = [].
Proof.
  intros H H1 H2 H3 H4. apply flat_map_silent.
  eapply Forall_impl; [ | exact H ].
  intros [| | | | | | [] | | | | | | | | | | | | |] He; cbn;
    try reflexivity; contradiction.
Qed.

(** C3, as the code has it.  When the authentication method is not a
    recognized one, when the authenticator of the configured method cannot
    be constructed (an invalid or missing preshared key, an OIDC issuer out
    of reach), or when the certificate or key file of the RPC transport
    cannot be read, [Run] returns that error and has done nothing but
    construct the limiter and try the authenticator and the credentials: no
    socket is bound, no server is constructed, no goroutine is started. *)
Theorem configuration_error_returned_before_binding
  env s ctx srv dst authentication profiler localInvoker e :
  configuration_error env srv authentication = Some e ->
  let r := Run env s ctx (Some srv) dst authentication profiler localInvoker in
  fst r = Returned (Some e) /\
  opened (snd r) = [] /\
  servers (snd r) = [] /\
  started (snd r) = [] /\
  Forall (among init_kinds) (snd r).
Proof.
  intros H.
  destruct (@configuration_error_ends_run env s ctx srv dst authentication
              profiler localInvoker e H)
    as (t & -> & Ht).
  cbn. repeat split; auto.
  - apply (opened_silent Ht). not_in_kinds.
  - apply (servers_silent Ht). not_in_kinds.
  - apply (started_silent Ht); not_in_kinds.
Qed.

Lemma configuration_error_returned_before_binding_witness :
  configuration_error quiet (server_config true no_tls)
    (Some (authn_config true "ldap"))
  = Some (ErrString "unknown authentication method: 'ldap'") /\
  let r := Run quiet container (cancelled_at 0) (Some (server_config true no_tls))
             (Some invoker_config) (Some (authn_config true "ldap"))
             (Some (profiler_config true)) local_invoker in
  fst r = Returned (Some (ErrString "unknown authentication method: 'ldap'")) /\
  opened (snd r) = [] /\
  servers (snd r) = [] /\
  started (snd r) = [] /\
  Forall (among init_kinds) (snd r).
Proof.
  split; [ reflexivity | ].
  apply (@configuration_error_returned_before_binding quiet container
           (cancelled_at 0) (server_config true no_tls) (Some invoker_config)
           (Some (authn_config true "ldap")) (Some (profiler_config true))
           local_invoker).
  reflexivity.
Defined.

(** The TLS files of the HTTP gateway are read by the goroutine of the
    gateway, after both RPC listeners are bound: when they cannot be read,
    [Run] has bound its sockets and returns no error for it. *)
Lemma gateway_tls_error_found_after_binding :
  let env := world (Some missing_file) None (Some millisecond) 0%N None in
  let srv := server_config true tls_files in
  some_configuration_error env srv None /\
  ~ fails_before_binding
      (Run env container (cancelled_at (60 * Second)) (Some srv)
         (Some invoker_config) None (Some (profiler_config false))
         local_invoker).
Proof.
  split.
  - right; right. split; [ reflexivity | discriminate ].
  - intros [[e He] _]. vm_compute in He. discriminate.
Qed.

(** ** A failed bind or dial ends the call, with the listeners still open *)

Lemma released_silent ks t :
  Forall (among ks) t -> ~ In KListenerClose ks -> ~ In KGracefulStop ks ->
  released t = [].
Proof.
  intros H Hk Hk'. unfold released. apply flat_map_silent.
  eapply Forall_impl; [ | exact H ].
  intros [] He; cbn; try reflexivity; contradiction.
Qed.

Lemma nothing_released_all_leaked t : released t = [] -> leaked t = opened t.
Proof.
  intros H. unfold leaked. rewrite H. cbn.
  induction (opened t) as [|lis l IH]; cbn; [ reflexivity | ].
  rewrite IH. reflexivity.
Qed.

Lemma among_app ks ks' t :
  Forall (among ks) t -> Forall (among (ks ++ ks')) t.
Proof.
  intros H. eapply Forall_impl; [ | exact H ].
  intros e He. unfold among in *. apply in_or_app. auto.
Qed.

Lemma among_app_r ks ks' t :
  Forall (among ks') t -> Forall (among (ks ++ ks')) t.
Proof.
  intros H. eapply Forall_impl; [ | exact H ].
  intros e He. unfold among in *. apply in_or_app. auto.
Qed.

(** C5, as the code has it.  When a bind of an RPC listener or the dial of
    the gateway fails, [Run] returns the error of that failure; it releases
    no listener on the way: every listener opened before the failing step
    is still open when [Run] returns. *)
Theorem acquisition_failure_returned_listeners_left_open
  env s ctx srv dst authentication profiler localInvoker e :
  let r := Run env s ctx srv dst authentication profiler localInvoker in
  In e (acquisition_failures (snd r)) ->
  fst r = Returned (Some e) /\
  released (snd r) = [] /\
  leaked (snd r) = opened (snd r).
Proof.
  cbn zeta. unfold Run.
  pose proof (@Run_body_structure env ctx s srv dst authentication profiler
                localInvoker (initial env)) as H.
  destruct (Run_body _ _ _ _ _ _ _ _ _) as [[t st] r]. cbn in H.
  pose proof (run_defers_kinds env (defers st)) as Hd.
  assert (Fd : acquisition_failures (run_defers env (defers st)) = []).
  { apply (acquisition_failures_silent Hd); not_in_kinds. }
  destruct H as [(t1 & h & g & i & st' & -> & _ & [H1 F1] & _) | (Hv & Ht & Hr)].
  - (* the start-up went through: nothing failed *)
    pose proof (wait_and_shutdown_kinds env ctx h g i st') as [H2 _].
    assert (F2 : acquisition_failures
                   (tr_of (wait_and_shutdown env ctx h g i st')) = []).
    { apply (acquisition_failures_silent H2); not_in_kinds. }
    intros Hin. exfalso.
    destruct r; cbn [snd] in Hin;
      rewrite ?acquisition_failures_app, ?F1, ?F2, ?Fd in Hin;
      exact Hin.
  - (* the start-up ended the call *)
    assert (K : Forall (among (startup_kinds ++ deferred_kinds))
                  (t ++ run_defers env (defers st))).
    { apply Forall_app. split; [ apply among_app | apply among_app_r ]; auto. }
    assert (K' : Forall (among (startup_kinds ++ deferred_kinds)) t).
    { apply among_app. exact Ht. }
    destruct r as [a | [e'|] | msg | ]; cbn in Hv, Hr; try discriminate;
      cbn [fst snd]; rewrite ?acquisition_failures_app, ?Fd, ?app_nil_r;
      intros Hin; try contradiction.
    + destruct Hr as [Hr | Hr]; rewrite Hr in Hin; [ contradiction | ].
      destruct Hin as [-> | []].
      assert (R : released (t ++ run_defers env (defers st)) = []).
      { apply (released_silent K); not_in_kinds. }
      auto using nothing_released_all_leaked.
    + rewrite Hr in Hin. contradiction.
    + rewrite Hr in Hin. contradiction.
Qed.

Lemma acquisition_failure_returned_listeners_left_open_witness :
  let r := Run (world None (Some (address_in_use "5000")) (Some millisecond)
                  0%N None)
             container (cancelled_at (60 * Second))
             (Some (server_config true no_tls)) (Some invoker_config) None
             (Some (profiler_config false)) local_invoker in
  In (address_in_use "5000") (acquisition_failures (snd r)) /\
  fst r = Returned (Some (address_in_use "5000")) /\
  released (snd r) = [] /\
  leaked (snd r) = opened (snd r).
Proof.
  cbn zeta. split; [ vm_compute; left; reflexivity | ].
  apply (@acquisition_failure_returned_listeners_left_open
           (world None (Some (address_in_use "5000")) (Some millisecond)
              0%N None)
           container (cancelled_at (60 * Second))
           (Some (server_config true no_tls)) (Some invoker_config) None
           (Some (profiler_config false)) local_invoker
           (address_in_use "5000")).
  vm_compute. left. reflexivity.
Defined.

(** The invoker port is taken: the primary listener, bound one step before,
    is still open when [Run] returns. *)
Lemma listeners_left_open_on_failure :
  ~ releases_what_it_opened
      (Run (world None (Some (address_in_use "5000")) (Some millisecond)
              0%N None)
         container (cancelled_at (60 * Second))
         (Some (server_config true no_tls)) (Some invoker_config) None
         (Some (profiler_config false)) local_invoker).
Proof.
  intros H. destruct H as [_ H].
  - vm_compute. discriminate.
  - vm_compute in H. discriminate.
Qed.

(** The primary server never answers the gateway's dial: after three
    seconds the dial gives up, [Run] returns the error of the deadline, and
    both listeners are still open, with both servers serving. *)
Lemma listeners_left_open_on_dial_timeout :
  let r := Run (world None None None 0%N None)
             container (cancelled_at (60 * Second))
             (Some (server_config true no_tls)) (Some invoker_config) None
             (Some (profiler_config false)) local_invoker in
  fst r = Returned (Some DeadlineExceeded) /\
  acquisition_failures (snd r) = [DeadlineExceeded] /\
  started (snd r) = [go_grpcServer_Serve 1 3; go_invokeServer_Serve 2 4] /\
  opened (snd r) = [3; 4] /\
  leaked (snd r) = [3; 4].
Proof. cbn zeta. repeat split; vm_compute; reflexivity. Qed.

(** ** The profiler *)

(** Whatever the profiler's server meets, [Run] does the same and returns
    the same. *)
Lemma Run_ignores_profiler_outcome
  env bind_ serve s ctx srv dst authentication profiler localInvoker :
  Run (with_profiler_outcome env bind_ serve)
    s ctx srv dst authentication profiler localInvoker
  = Run env s ctx srv dst authentication profiler localInvoker.
Proof. reflexivity. Qed.

(** The line that logs is guarded by [errors.Is(err, http.ErrServerClosed)]:
    the profiler's goroutine writes an error line when its server was
    closed, and none when its server failed. *)
Lemma profiler_logs_only_a_closed_server env port mux :
  error_lines (goroutine_trace env (go_profiler port mux))
  = if errors_Is (http_ListenAndServe (pprof_bind env) (pprof_serve env))
         ErrServerClosed
    then ["failed to start profiler"]
    else [].
Proof.
  cbn. destruct (errors_Is _ _); reflexivity.
Qed.

(** The goroutine of the gateway has the guard the other way round: it
    writes an error line for every error but [http.ErrServerClosed]. *)
Lemma gateway_logs_all_but_a_closed_server env server :
  error_lines (goroutine_trace env (go_httpServer server no_tls))
  = if errors_Is (http_ListenAndServe (http_bind env) (http_serve env))
         ErrServerClosed
    then []
    else [error_Error (http_ListenAndServe (http_bind env) (http_serve env))].
Proof.
  cbn. destruct (errors_Is _ _); reflexivity.
Qed.

(** C9, at the failing input.  The profiler is enabled and its port is
    taken.  [Run] starts the profiler's goroutine, goes on to serve and
    returns nil at the cancellation, whatever the profiler's server meets;
    but the goroutine writes no error line for the failed bind: its only
    line is the one that announces a successful start. *)
Theorem profiler_bind_failure_is_silent :
  let env := world None None (Some millisecond) 0%N
               (Some (address_in_use "6060")) in
  let r := Run env container (cancelled_at (60 * Second))
             (Some (server_config false no_tls)) (Some invoker_config) None
             (Some (profiler_config true)) local_invoker in
  fst r = Returned None /\
  started (snd r)
  = [ go_profiler "6060" (pprof_mux pprof_routes);
      go_grpcServer_Serve 1 3; go_invokeServer_Serve 2 4 ] /\
  goroutine_trace env (go_profiler "6060" (pprof_mux pprof_routes))
  = [ EvLog LevelInfo "profiler server successfully started: 6060" ] /\
  error_lines
    (goroutine_trace env (go_profiler "6060" (pprof_mux pprof_routes)))
  = [].
Proof. cbn zeta. repeat split; vm_compute; reflexivity. Qed.

(** ** A failed shutdown of the gateway *)

Lemma shutdown_calls_app t1 t2 :
  shutdown_calls (t1 ++ t2) = shutdown_calls t1 ++ shutdown_calls t2.
Proof. apply flat_map_app. Qed.

Lemma gracefully_stopped_app t1 t2 :
  gracefully_stopped (t1 ++ t2)
  = gracefully_stopped t1 ++ gracefully_stopped t2.
Proof. apply flat_map_app. Qed.

Lemma shutdown_calls_silent ks t :
  Forall (among ks) t -> ~ In KShutdown ks -> shutdown_calls t = [].
Proof.
  intros H Hk. apply flat_map_silent.
  eapply Forall_impl; [ | exact H ].
  intros [] He; cbn; try reflexivity; contradiction.
Qed.

Lemma gracefully_stopped_silent ks t :
  Forall (among ks) t -> ~ In KGracefulStop ks -> gracefully_stopped t = [].
Proof.
  intros H Hk. apply flat_map_silent.
  eapply Forall_impl; [ | exact H ].
  intros [] He; cbn; try reflexivity; contradiction.
Qed.

(** Lines 339 to 344: when [Shutdown] returns an error, the error is logged
    and returned at once; lines 347 and 348 are not reached. *)
Lemma wait_and_shutdown_failed env ctx h g i st e :
  shutdown_failed_with e (tr_of (wait_and_shutdown env ctx h g i st)) ->
  res_of (wait_and_shutdown env ctx h g i st) = Return (Some e) /\
  gracefully_stopped (tr_of (wait_and_shutdown env ctx h g i st)) = [].
Proof.
  unfold shutdown_failed_with.
  destruct ctx as [cd ce], h as [server|], st as [t0 n0 d0].
  all: norm; repeat run_step.
  all: intros (c & at_ & Hin); cbn in Hin.
  all: repeat match goal with
         | H : _ \/ _ |- _ => destruct H
         | H : False |- _ => destruct H
         | H : (_, _, _) = (_, _, _) |- _ => inversion H; clear H; subst
         end.
  all: try discriminate; auto.
Qed.

(** In every call: when the shutdown of the gateway returns an error, [Run]
    returns that error and has asked no RPC server to stop. *)
Lemma failed_gateway_shutdown_ends_run
  env s ctx srv dst authentication profiler localInvoker e :
  let r := Run env s ctx srv dst authentication profiler localInvoker in
  shutdown_failed_with e (snd r) ->
  fst r = Returned (Some e) /\ gracefully_stopped (snd r) = [].
Proof.
  cbn zeta. unfold Run.
  pose proof (@Run_body_structure env ctx s srv dst authentication profiler
                localInvoker (initial env)) as H.
  destruct (Run_body _ _ _ _ _ _ _ _ _) as [[t st] r]. cbn in H.
  pose proof (run_defers_kinds env (defers st)) as Hd.
  pose proof (shutdown_calls_silent Hd ltac:(not_in_kinds)) as Cd.
  pose proof (gracefully_stopped_silent Hd ltac:(not_in_kinds)) as Gd.
  unfold shutdown_failed_with.
  destruct H as [(t1 & h & g & i & st' & -> & -> & [H1 _] & _) | (Hv & Ht & _)].
  - pose proof (shutdown_calls_silent H1 ltac:(not_in_kinds)) as C1.
    pose proof (gracefully_stopped_silent H1 ltac:(not_in_kinds)) as G1.
    pose proof (@wait_and_shutdown_failed env ctx h g i st' e) as W.
    unfold shutdown_failed_with in W.
    intros Hin.
    assert (Hin' : exists c at_,
               In (c, at_, Some e)
                 (shutdown_calls
                    (tr_of (wait_and_shutdown env ctx h g i st')))).
    { destruct (res_of _); cbn [snd] in Hin;
        rewrite ?shutdown_calls_app, ?C1, ?Cd, ?app_nil_r in Hin;
        exact Hin. }
    destruct (W Hin') as [Wr Wg]. rewrite Wr. cbn [fst snd].
    rewrite !gracefully_stopped_app, G1, Gd, Wg. auto.
  - pose proof (shutdown_calls_silent Ht ltac:(not_in_kinds)) as Ct.
    intros (c & at_ & Hin). exfalso.
    destruct r; cbn [snd] in Hin;
      rewrite ?shutdown_calls_app, ?Ct, ?Cd in Hin; exact Hin.
Qed.

(** C1, at the failing input.  The gateway is on and a request in flight
    needs ten seconds when the context is cancelled.  [Shutdown] returns
    the error of its context; [Run] logs it and returns it at once: the
    only step of the shutdown taken is that of the gateway, neither RPC
    server is asked to stop, their goroutines are left serving and both
    listeners are left open. *)
Theorem gateway_shutdown_error_skips_graceful_stop :
  let r := Run (world None None (Some millisecond) (10 * Second)%N None)
             container (cancelled_at (60 * Second))
             (Some (server_config true no_tls)) (Some invoker_config) None
             (Some (profiler_config false)) local_invoker in
  fst r = Returned (Some Canceled) /\
  error_lines (snd r) = ["context canceled"] /\
  stops (snd r) = [StopHTTP] /\
  servers (snd r) = [1; 2] /\
  gracefully_stopped (snd r) = [] /\
  served_by (snd r) 1 = [3] /\
  served_by (snd r) 2 = [4] /\
  leaked (snd r) = [3; 4].
Proof. cbn zeta. repeat split; vm_compute; reflexivity. Qed.

(** C2, at the failing input.  The gateway is on and a request in flight
    needs one second when the context is cancelled, at the sixtieth second.
    The context [Shutdown] gets is derived from the cancelled one: it is
    done at the instant of the cancellation, not five seconds later, so
    nothing is left of the grace period when [Shutdown] is called, and the
    call returns [context.Canceled] without waiting for the request. *)
Theorem shutdown_context_is_done_at_cancellation :
  let r := Run (world None None (Some millisecond) (1 * Second)%N None)
             container (cancelled_at (60 * Second))
             (Some (server_config true no_tls)) (Some invoker_config) None
             (Some (profiler_config false)) local_invoker in
  shutdown_calls (snd r)
  = [ (cancelled_at (60 * Second), (60 * Second)%N, Some Canceled) ] /\
  remaining (cancelled_at (60 * Second)) (60 * Second) = Some 0%N /\
  fst r = Returned (Some Canceled) /\
  gracefully_stopped (snd r) = [].
Proof. cbn zeta. repeat split; vm_compute; reflexivity. Qed.

(** ** Nil configurations *)

Lemma fst_Run env s ctx srv dst authentication profiler localInvoker :
  fst (Run env s ctx srv dst authentication profiler localInvoker)
  = outcome_of
      (res_of (Run_body env s ctx srv dst authentication profiler
                 localInvoker (initial env))).
Proof.
  unfold Run. destruct (Run_body _ _ _ _ _ _ _ _ _) as [[t st] r].
  destruct r; reflexivity.
Qed.

Lemma configure_authentication_result env authentication u s :
  ensures (configure_authentication env authentication u s)
    (fun _ r =>
       match authentication_error env authentication with
       | Some e => r = Return (Some e)
       | None => is_Val r = true
       end).
Proof.
  unfold authentication_error.
  destruct authentication as [[en method pre oi]|].
  all: intros st; norm; repeat run_step; reflexivity.
Qed.

Lemma server_options_result env srv u s :
  ensures (server_options env srv u s)
    (fun _ r =>
       match tls_files_error env
               (config.GRPC_TLSConfig (config.Srv_GRPC srv)) with
       | Some e => r = Return (Some e)
       | None => is_Val r = true
       end).
Proof.
  unfold tls_files_error.
  destruct srv as [rl [gp [ge gc gk]] http].
  intros st; norm; repeat run_step; reflexivity.
Qed.

(** The result of [Run] is the configuration error, if there is one, and
    else the result of what follows the construction of the servers. *)
Lemma Run_body_result env s ctx srv dst authentication profiler localInvoker :
  ensures
    (Run_body env s ctx (Some srv) dst authentication profiler localInvoker)
    (fun _ r =>
       match configuration_error env srv authentication with
       | Some e => r = Return (Some e)
       | None =>
           exists g i st,
             r = res_of
                   ((start_profiler profiler ;;
                     bind_and_serve env srv dst g i ;;
                     httpServer <- start_gateway env ctx srv ;;
                     wait_and_shutdown env ctx httpServer g i) st)
       end).
Proof.
  unfold Run_body, configuration_error.
  eapply ensures_bind with (Post1 := fun _ r => r = Val srv).
  { intros st. reflexivity. }
  2: { intros t r -> [=]. }
  intros t0 srv_ [= ->].
  eapply ensures_bind with (Post1 := fun _ r => is_Val r = true).
  { intros st. reflexivity. }
  2: { intros t r -> [=]. }
  intros t1 limiter _.
  eapply ensures_bind; [ apply configure_authentication_result | | ].
  2: { intros t r Hr Hv.
       destruct (authentication_error env authentication);
         [ subst r; reflexivity | congruence ]. }
  intros t2 chains Hc.
  destruct (authentication_error env authentication); [ discriminate | ].
  eapply ensures_bind; [ apply server_options_result | | ].
  2: { intros t r Hr Hv.
       destruct (tls_files_error env _);
         [ subst r; reflexivity | congruence ]. }
  intros t3 opts Ho.
  destruct (tls_files_error env _); [ discriminate | ].
  eapply ensures_bind with (Post1 := fun _ r => is_Val r = true).
  { intros st. reflexivity. }
  2: { intros t r -> [=]. }
  intros t4 [g i] _ st. exists g, i, st. reflexivity.
Qed.

(** C10, as the code has it.  A nil authentication configuration is a
    disabled one: the call does what it does with authentication off, and
    the chains of the servers end with the rate limiting.  A nil server
    configuration makes [Run] panic at once.  A nil profiler configuration,
    and a nil distributed configuration, make [Run] panic when the line that
    dereferences them is reached: for the profiler, when there is no
    configuration error; for the distributed configuration, when in
    addition the primary port was bound.  A call that ends before that line
    returns the error it ends with. *)
Theorem nil_configurations
  env s ctx srv osrv odst authentication oauthentication
  profiler oprofiler localInvoker method preshared_ oidc_ :
  Run env s ctx osrv odst None oprofiler localInvoker
  = Run env s ctx osrv odst
      (Some {| config.Authn_Enabled := false;
               config.Method := method;
               config.Authn_Preshared := preshared_;
               config.Authn_Oidc := oidc_ |})
      oprofiler localInvoker /\
  Forall (built_in_order None)
    (snd (Run env s ctx osrv odst None oprofiler localInvoker)) /\
  Run env s ctx None odst oauthentication oprofiler localInvoker
  = (Panicked nil_dereference, []) /\
  fst (Run env s ctx (Some srv) odst authentication None localInvoker)
  = match configuration_error env srv authentication with
    | Some e => Returned (Some e)
    | None => Panicked nil_dereference
    end /\
  fst (Run env s ctx (Some srv) None authentication (Some profiler)
         localInvoker)
  = match configuration_error env srv authentication with
    | Some e => Returned (Some e)
    | None =>
        match listen_grpc env with
        | Some e => Returned (Some e)
        | None => Panicked nil_dereference
        end
    end.
Proof.
  split; [ reflexivity | ].
  split; [ apply Run_events; [ kinds_only | apply Run_body_chains ] | ].
  split; [ reflexivity | ].
  split.
  - rewrite fst_Run.
    pose proof (@Run_body_result env s ctx srv odst authentication None
                  localInvoker (initial env)) as H.
    cbn beta in H.
    destruct (configuration_error env srv authentication).
    + rewrite H. reflexivity.
    + destruct H as (g & i & st & ->). reflexivity.
  - rewrite fst_Run.
    pose proof (@Run_body_result env s ctx srv None authentication
                  (Some profiler) localInvoker (initial env)) as H.
    cbn beta in H.
    destruct (configuration_error env srv authentication).
    + rewrite H. reflexivity.
    + destruct H as (g & i & st & ->).
      destruct profiler as [[] port], srv as [rl [gp tls] http];
        norm; destruct (listen_grpc env); reflexivity.
Qed.

(** The profiler configuration is nil and the authentication method is not
    a recognized one: [Run] returns the error of the method and does not
    panic. *)
Lemma nil_profiler_without_panic :
  let r := Run quiet container (cancelled_at 0)
             (Some (server_config false no_tls)) (Some invoker_config)
             (Some (authn_config true "ldap")) None local_invoker in
  fst r = Returned (Some (ErrString "unknown authentication method: 'ldap'")) /\
  ~ (exists msg, fst r = Panicked msg).
Proof.
  cbn zeta. split; [ vm_compute; reflexivity | ].
  intros [msg H]. vm_compute in H. discriminate.
Qed.

(** ** A call in which nothing fails *)

(** Preshared-key authentication, the profiler and the gateway are on, the
    outside world answers every call, and the context is cancelled at the
    sixtieth second with no request in flight. *)
Example quiet_run :
  let r := Run quiet container (cancelled_at (60 * Second))
             (Some (server_config true no_tls)) (Some invoker_config)
             (Some (authn_config true "preshared"))
             (Some (profiler_config true)) local_invoker in
  let opts :=
    [ ChainUnaryInterceptor
        [ grpcValidator_Unary; grpcRecovery_Unary; ratelimit_Unary 0;
          grpcAuth_Unary (KeyAuthFunc 1) ];
      ChainStreamInterceptor
        [ grpcValidator_Stream; grpcRecovery_Stream; ratelimit_Stream 0;
          grpcAuth_Stream (KeyAuthFunc 1) ] ] in
  fst r = Returned None /\
  limiters (snd r) = [0] /\
  server_options_of (snd r) = [opts; opts] /\
  servers (snd r) = [2; 3] /\
  opened (snd r) = [4; 5] /\
  stops (snd r) = [StopHTTP; StopRPC 2; StopRPC 3] /\
  leaked (snd r) = [] /\
  error_lines (snd r) = [].
Proof. cbn zeta. repeat split; vm_compute; reflexivity. Qed.

(** * More of [Run] *)

(** ** The anatomy of a call *)

Lemma ensures_and {A} (m : M A) (P Q : trace -> Res A -> Prop) :
  ensures m P -> ensures m Q -> ensures m (fun t r => P t r /\ Q t r).
Proof. intros HP HQ st. split; [ apply HP | apply HQ ]. Qed.

Lemma ensures_runs {A} (m : M A) : ensures m (runs m).
Proof. intros st. exists st. auto. Qed.

(** The options: the two chains, and the credentials of the RPC transport
    when its TLS is on.  Lines 141 to 153. *)
Lemma server_options_credentials env srv u s :
  ensures (server_options env srv u s)
    (fun _ r =>
       match r with
       | Val opts => credentials_of opts = rpc_credentials srv
       | _ => True
       end).
Proof.
  destruct srv as [rl [gp [ge gc gk]] http].
  intros st; norm; repeat run_step; exact I || reflexivity.
Qed.

Lemma Run_body_anatomy
  env s ctx srv dst authentication profiler localInvoker :
  ensures
    (Run_body env s ctx (Some srv) dst authentication profiler localInvoker)
    (anatomy env s ctx srv dst authentication profiler localInvoker).
Proof.
  unfold Run_body.
  eapply ensures_bind with (Post1 := fun t r => t = [] /\ r = Val srv).
  { intros st. split; reflexivity. }
  2: { intros t r [_ ->] [=]. }
  intros ? srv_ [-> [= ->]]. cbn [app].
  eapply ensures_bind with (Post1 := fun t r =>
    Forall (among init_kinds) t /\ is_Val r = true).
  { intros st. split; [ | reflexivity ].
    apply (middleware_NewRateLimiter_kinds (config.RateLimit srv) st). }
  2: { intros t r [_ Hv] Hx. congruence. }
  intros t0 limiter [H0 _].
  eapply ensures_bind.
  { apply ensures_and;
      [ apply configure_authentication_kinds
      | apply configure_authentication_result ]. }
  2: { intros t r [[Ht _] Hr] Hv.
       destruct (authentication_error env authentication) as [e|] eqn:E;
         [ | congruence ].
       subst r. apply ends_in_configuration.
       - apply Forall_app. auto.
       - unfold configuration_error. rewrite E. reflexivity. }
  intros t1 chains [[H1 _] Hr1].
  destruct (authentication_error env authentication) eqn:E1;
    [ discriminate | ]. clear Hr1.
  eapply ensures_bind.
  { apply ensures_and;
      [ apply ensures_and;
        [ apply server_options_kinds | apply server_options_result ]
      | apply server_options_credentials ]. }
  2: { intros t r [[[Ht _] Hr] _] Hv.
       destruct (tls_files_error env _) as [e|] eqn:E; [ | congruence ].
       subst r. rewrite app_assoc. apply ends_in_configuration.
       - repeat (apply Forall_app; split); auto.
       - unfold configuration_error. rewrite E1. exact E. }
  intros t2 opts [[[H2 _] Hr2] Hc].
  destruct (tls_files_error env _) eqn:E2; [ discriminate | ]. clear Hr2.
  assert (C : configured env srv authentication (t0 ++ t1 ++ t2) opts).
  { split; [ repeat (apply Forall_app; split); auto | split; [ | exact Hc ] ].
    unfold configuration_error. rewrite E1. exact E2. }
  eapply ensures_bind with (Post1 := fun t r =>
    runs (new_servers s localInvoker opts) t r /\ is_Val r = true).
  { apply ensures_and; [ apply ensures_runs | intros st; reflexivity ]. }
  2: { intros t r [_ Hv] Hx. congruence. }
  intros t3 [g i] [R3 _]. cbn [fst snd].
  eapply ensures_bind; [ apply ensures_runs | | ].
  2: { intros t r R Hv.
       replace (t0 ++ t1 ++ t2 ++ t3 ++ t) with ((t0 ++ t1 ++ t2) ++ t3 ++ t)
         by (rewrite <- !app_assoc; reflexivity).
       eapply ends_in_profiler; eauto. }
  intros t4 [] R4.
  eapply ensures_bind; [ apply ensures_runs | | ].
  2: { intros t r R Hv.
       replace (t0 ++ t1 ++ t2 ++ t3 ++ t4 ++ t)
         with ((t0 ++ t1 ++ t2) ++ t3 ++ t4 ++ t)
         by (rewrite <- !app_assoc; reflexivity).
       eapply ends_in_bind; eauto. }
  intros t5 [] R5.
  eapply ensures_bind; [ apply ensures_runs | | ].
  2: { intros t r R Hv.
       replace (t0 ++ t1 ++ t2 ++ t3 ++ t4 ++ t5 ++ t)
         with ((t0 ++ t1 ++ t2) ++ t3 ++ t4 ++ t5 ++ t)
         by (rewrite <- !app_assoc; reflexivity).
       eapply ends_in_gateway; eauto. }
  intros t6 h R6.
  eapply ensures_weaken; [ apply ensures_runs | ].
  intros t r R.
  replace (t0 ++ t1 ++ t2 ++ t3 ++ t4 ++ t5 ++ t6 ++ t)
    with ((t0 ++ t1 ++ t2) ++ t3 ++ t4 ++ t5 ++ t6 ++ t)
    by (rewrite <- !app_assoc; reflexivity).
  eapply ends_in_shutdown; eauto.
Qed.

(** From the body to the call. *)
Lemma Run_anatomy env s ctx srv dst authentication profiler localInvoker :
  exists t r t_d,
    anatomy env s ctx srv dst authentication profiler localInvoker t r /\
    Run env s ctx (Some srv) dst authentication profiler localInvoker
    = (outcome_of r, t ++ t_d) /\
    Forall (among deferred_kinds) t_d /\
    (r = Block -> t_d = []).
Proof.
  pose proof (@Run_body_anatomy env s ctx srv dst authentication profiler
                localInvoker (initial env)) as H.
  unfold Run.
  destruct (Run_body _ _ _ _ _ _ _ _ _) as [[t st] r]. cbn in H.
  destruct r as [a | e | msg | ].
  - exists t, (Val a), (run_defers env (defers st)).
    repeat split; auto using run_defers_kinds. discriminate.
  - exists t, (Return e), (run_defers env (defers st)).
    repeat split; auto using run_defers_kinds. discriminate.
  - exists t, (Panic msg), (run_defers env (defers st)).
    repeat split; auto using run_defers_kinds. discriminate.
  - exists t, Block, []. rewrite app_nil_r. repeat split; auto.
Qed.

(** A projection of the trace sees nothing of a stretch whose kinds of
    events it does not look at. *)
Lemma silent {B} (f : event -> list B) ks t :
  Forall (among ks) t -> (forall e, among ks e -> f e = []) ->
  flat_map f t = [].
Proof.
  intros H Hf. apply flat_map_silent.
  eapply Forall_impl; [ exact Hf | exact H ].
Qed.

Lemma runs_kinds {A} ks (m : M A) V X t r :
  obeys (among ks) m V X -> runs m t r -> Forall (among ks) t.
Proof. intros H (st & <- & _). apply H. Qed.

Ltac kinds_silent :=
  let e := fresh "e" in
  let H := fresh "H" in
  intros e H; destruct e as [| | | | | | [] | | | | | | | | | | | | |];
  cbv in H; try reflexivity; exfalso; intuition discriminate.

Ltac projections :=
  cbv beta delta [dialed closed derived cancelled registered bound serving
                  profilers gateways muxes handlers dials servers stops
                  opened started gracefully_stopped acquisition_failures
                  shutdown_calls limiters server_options_of error_lines].

(** [mute p H]: the projection [p] of a stretch is empty, by the kinds [H]
    gives the stretch. *)
Ltac mute p H :=
  let E := fresh "E" in
  assert (E : p = [])
    by (projections; eapply silent; [ exact H | kinds_silent ]);
  rewrite ?E.

(** ** What each part does *)

Lemma new_servers_runs s li opts t g i :
  runs (new_servers s li opts) t (Val (g, i)) ->
  g <> i /\
  t = [ EvNewServer g opts;
        EvRegister g (PermissionServer (C_Invoker s));
        EvRegister g (SchemaServer (SW s) (SR s));
        EvRegister g (DataServer (DR s) (DW s) (SR s));
        EvRegister g (TenancyServer (TR s) (TW s));
        EvRegister g (WatchServer (W s) (DR s));
        EvRegister g HealthServer;
        EvRegister g ReflectionService;
        EvNewServer i opts;
        EvRegister i (PermissionServer li);
        EvRegister i HealthServer;
        EvRegister i ReflectionService ].
Proof.
  intros (st & <- & H). cbn in H. injection H as <- <-.
  split; [ apply n_Sn | reflexivity ].
Qed.

Lemma start_profiler_runs profiler t r :
  runs (start_profiler profiler) t r ->
  match profiler with
  | Some p =>
      r = Val tt /\
      t = if config.Profiler_Enabled p
          then [EvGo (go_profiler (config.Profiler_Port p)
                        (pprof_mux pprof_routes))]
          else []
  | None => r = Panic nil_dereference /\ t = []
  end.
Proof.
  intros (st & <- & <-). destruct profiler as [[[] port]|]; cbn; auto.
Qed.

Lemma bind_and_serve_runs env srv dst g i t r :
  runs (bind_and_serve env srv dst g i) t r ->
  match r with
  | Val _ =>
      exists d lis ilis,
        dst = Some d /\ lis <> ilis /\
        t = [ EvListen (":" ++ config.GRPC_Port (config.Srv_GRPC srv))%string
                (Ok lis);
              EvListen (":" ++ config.Dst_Port d)%string (Ok ilis);
              EvGo (go_grpcServer_Serve g lis);
              EvGo (go_invokeServer_Serve i ilis);
              EvLog LevelInfo
                ("grpc server successfully started: "
                 ++ config.GRPC_Port (config.Srv_GRPC srv))%string;
              EvLog LevelInfo
                ("invoker grpc server successfully started: "
                 ++ config.Dst_Port d)%string ]
  | Return None | Block => False
  | _ => Forall (among [KListen]) t
  end.
Proof.
  intros (st & <- & <-). destruct st as [n0 p0 d0], dst as [[port]|].
  all: norm; repeat run_step; try (all_events; cbv; auto).
  all: eexists _, _, _; repeat split; try reflexivity; apply n_Sn.
Qed.

Lemma wait_and_shutdown_runs env ctx h g i t r :
  runs (wait_and_shutdown env ctx h g i) t r ->
  match done_at ctx with
  | None => t = [] /\ r = Block
  | Some _ =>
      let gateway := if present h then [StopHTTP] else [] in
      (present h = true /\
       stops t = [StopHTTP] /\
       exists e, shutdown_failed_with e t /\ r = Return (Some e)) \/
      (grpcServer_drain env = None /\
       stops t = gateway ++ [StopRPC g] /\
       r = Block) \/
      (grpcServer_drain env <> None /\
       stops t = gateway ++ [StopRPC g; StopRPC i] /\
       r = (if present (invokeServer_drain env) then Return None else Block) /\
       (r = Return None ->
        In (EvLog LevelInfo "gracefully shutting down") t))
  end.
Proof.
  intros (st & <- & <-).
  destruct st as [n0 p0 d0], ctx as [[stop|] ce], h as [server|].
  all: norm; repeat run_step; auto.
  all: try (left; repeat split; try reflexivity;
            eexists; split; [ eexists _, _; cbn; left; reflexivity
                            | reflexivity ]).
  all: try (right; left; repeat split; reflexivity).
  all: right; right; repeat split; try reflexivity; try discriminate.
  all: intros _; cbn; auto 12.
Qed.

Lemma start_gateway_runs env ctx srv t r :
  runs (start_gateway env ctx srv) t r ->
  let http := config.Srv_HTTP srv in
  match r with
  | Val None => t = [] /\ config.HTTP_Enabled http = false
  | Val (Some server) =>
      config.HTTP_Enabled http = true /\
      exists conn mux,
        dialed t = [conn] /\
        muxes t
        = [ (mux, [ WithHealthzEndpoint conn;
                    WithMarshalerOption MIMEWildcard gateway_marshaler ]) ] /\
        handlers t
        = [ (PermissionHandler, mux, conn, None);
            (SchemaHandler, mux, conn, None);
            (DataHandler, mux, conn, None);
            (TenancyHandler, mux, conn, None) ] /\
        gateways t = [ (server, config.HTTP_TLSConfig http) ] /\
        server
        = {| Addr := (":" ++ config.HTTP_Port http)%string;
             Srv_Handler :=
               cors_Handler
                 {| AllowCredentials := true;
                    AllowedOrigins := config.CORSAllowedOrigins http;
                    AllowedHeaders := config.CORSAllowedHeaders http;
                    AllowedMethods :=
                      ["GET"; "POST"; "HEAD"; "PATCH"; "DELETE"; "PUT"] |}
                 mux;
             ReadTimeout := 0%N;
             WriteTimeout := 0%N;
             IdleTimeout := 0%N;
             ReadHeaderTimeout := (5 * Second)%N |}
  | Return None | Block => False
  | _ => gateways t = []
  end.
Proof.
  intros (st & <- & <-).
  destruct srv as [rl [gp [ge gc gk]] [he hp htls ho hh]], ctx as [cd ce],
    st as [n0 p0 d0].
  norm; repeat run_step; auto.
  all: split; [ reflexivity | eexists _, _; repeat split; reflexivity ].
Qed.

(** The dial of the gateway, lines 244 to 261. *)
Lemma start_gateway_dials env ctx srv t r :
  runs (start_gateway env ctx srv) t r ->
  dials t = [] \/
  exists (at_ : N) (c : Context) (d : N),
    In (EvWithTimeout ctx (3 * Second)%N at_ c) t /\
    dials t
    = [ (c, (":" ++ config.GRPC_Port (config.Srv_GRPC srv))%string,
         [ WithBlock; WithUnaryInterceptor_otelgrpc;
           WithTransportCredentials (gateway_credentials srv) ]) ] /\
    done_at c = Some d /\
    (d <=? at_ + 3 * Second)%N = true.
Proof.
  intros (st & <- & <-).
  destruct srv as [rl [gp [ge gc gk]] [he hp htls ho hh]], ctx as [cd ce],
    st as [n0 p0 d0].
  norm; repeat run_step; auto.
  all: right; eexists _, _, _.
  all: split; [ first [ left; reflexivity | right; left; reflexivity ] | ].
  all: split; [ reflexivity | split; [ reflexivity | ] ].
  all: assumption || apply N.leb_refl.
Qed.

(** ** Reading the anatomy *)

(** [hush H]: the projections of the stretch of [H] that do not look at its
    kinds of events are rewritten to the empty list. *)
Ltac hush H :=
  match type of H with
  | Forall (among _) ?seg =>
      repeat match goal with
             | |- context [flat_map ?f seg] =>
                 rewrite (silent f H) by kinds_silent
             end
  end.

(** The kinds of the events of every part of an anatomy. *)
Ltac part_kinds :=
  repeat match goal with
         | C : configured _ _ _ _ _ |- _ =>
             let Hi := fresh "Ki" in
             let Hc := fresh "Hc" in
             let Ho := fresh "Ho" in
             destruct C as (Hi & Hc & Ho)
         | R : runs (new_servers _ _ _) ?t _ |- _ =>
             lazymatch goal with
             | _ : Forall (among servers_kinds) t |- _ => fail
             | _ => pose proof (runs_kinds (new_servers_kinds _ _ _) R)
             end
         | R : runs (start_profiler _) ?t _ |- _ =>
             lazymatch goal with
             | _ : Forall (among profiler_kinds) t |- _ => fail
             | _ => pose proof (runs_kinds (start_profiler_kinds _) R)
             end
         | R : runs (bind_and_serve _ _ _ _ _) ?t _ |- _ =>
             lazymatch goal with
             | _ : Forall (among bind_kinds) t |- _ => fail
             | _ => pose proof (runs_kinds (bind_and_serve_kinds _ _ _ _ _) R)
             end
         | R : runs (start_gateway _ _ _) ?t _ |- _ =>
             lazymatch goal with
             | _ : Forall (among gateway_kinds) t |- _ => fail
             | _ => pose proof (runs_kinds (start_gateway_kinds _ _ _) R)
             end
         | R : runs (wait_and_shutdown _ _ _ _ _) ?t _ |- _ =>
             lazymatch goal with
             | _ : Forall (among shutdown_kinds) t |- _ => fail
             | _ =>
                 pose proof (runs_kinds (wait_and_shutdown_kinds _ _ _ _ _) R)
             end
         end.

(** All the stretches that can be are hushed. *)
Ltac hush_all :=
  projections; rewrite ?flat_map_app;
  repeat match goal with
         | H : Forall (among _) _ |- _ => progress (hush H)
         end;
  cbn [app]; rewrite ?app_nil_r.

(** X3.  The servers [Run] constructs are two distinct ones, or none when
    the configuration is in error.  The first has the whole API: the
    permission service of the container's invoker, the schema, data,
    tenancy and watch services, health and reflection.  The second has the
    permission service of the local invoker, health and reflection, and
    nothing else. *)
Theorem services_of_the_two_servers
  env s ctx srv dst authentication profiler localInvoker :
  let t := snd (Run env s ctx (Some srv) dst authentication profiler
                  localInvoker) in
  match configuration_error env srv authentication with
  | Some _ => servers t = []
  | None =>
      exists grpcServer invokeServer,
        servers t = [grpcServer; invokeServer] /\
        grpcServer <> invokeServer /\
        registered t grpcServer = primary_services s /\
        registered t invokeServer = invoker_services localInvoker
  end.
Proof.
  cbn zeta.
  destruct (Run_anatomy env s ctx srv dst authentication profiler
              localInvoker) as (t & r & t_d & A & -> & Kd & _).
  cbn [snd].
  destruct A; part_kinds.
  1: { match goal with H : configuration_error _ _ _ = _ |- _ => rewrite H end.
       hush_all. reflexivity. }
  all: rewrite Hc.
  all: match goal with
       | R : runs (new_servers _ _ _) _ _ |- _ =>
           destruct (new_servers_runs R) as [Hgi ->]
       end.
  all: exists g, i.
  all: pose proof (proj2 (Nat.eqb_neq g i) Hgi) as E1.
  all: assert (E2 : Nat.eqb i g = false)
         by (apply Nat.eqb_neq; intros ->; apply Hgi; reflexivity).
  all: repeat split; try exact Hgi.
  all: hush_all; cbn; rewrite ?Nat.eqb_refl, ?E1, ?E2; reflexivity.
Qed.

(** [open_run]: the anatomy of the call at hand, case by case. *)
Ltac open_run env s ctx srv dst authentication profiler localInvoker :=
  let t := fresh "t" in
  let r := fresh "r" in
  let t_d := fresh "t_d" in
  let A := fresh "A" in
  let E := fresh "E" in
  let Kd := fresh "Kd" in
  let Hb := fresh "Hb" in
  destruct (Run_anatomy env s ctx srv dst authentication profiler
              localInvoker) as (t & r & t_d & A & E & Kd & Hb);
  rewrite E in *; clear E; cbn [fst snd] in *;
  destruct A; part_kinds.

(** X4.  A server serves only once both listeners are bound, and then the
    primary server serves on the listener of the RPC port and the invoker
    server on the listener of the distributed port, two distinct
    listeners. *)
Theorem servers_serve_on_their_own_listeners
  env s ctx srv dst authentication profiler localInvoker :
  let t := snd (Run env s ctx (Some srv) dst authentication profiler
                  localInvoker) in
  serving t = [] \/
  exists d grpcServer invokeServer lis invokeLis,
    dst = Some d /\
    servers t = [grpcServer; invokeServer] /\
    bound t
    = [ ((":" ++ config.GRPC_Port (config.Srv_GRPC srv))%string, lis);
        ((":" ++ config.Dst_Port d)%string, invokeLis) ] /\
    lis <> invokeLis /\
    serving t = [ (grpcServer, lis); (invokeServer, invokeLis) ].
Proof.
  cbn zeta.
  open_run env s ctx srv dst authentication profiler localInvoker.
  - left. hush_all. reflexivity.
  - left. hush_all. reflexivity.
  - left.
    match goal with
    | R : runs (bind_and_serve _ _ _ _ _) _ ?r |- _ =>
        pose proof (bind_and_serve_runs R) as B;
        destruct r as [a | [e|] | msg | ]; try discriminate;
        try contradiction
    end.
    all: hush_all; reflexivity.
  - right.
    match goal with
    | R : runs (bind_and_serve _ _ _ _ _) _ _ |- _ =>
        destruct (bind_and_serve_runs R) as (d & lis & ilis & -> & Hl & ->)
    end.
    match goal with
    | R : runs (new_servers _ _ _) _ _ |- _ =>
        destruct (new_servers_runs R) as [Hgi ->]
    end.
    exists d, g, i, lis, ilis. repeat split; auto; hush_all; reflexivity.
  - right.
    match goal with
    | R : runs (bind_and_serve _ _ _ _ _) _ _ |- _ =>
        destruct (bind_and_serve_runs R) as (d & lis & ilis & -> & Hl & ->)
    end.
    match goal with
    | R : runs (new_servers _ _ _) _ _ |- _ =>
        destruct (new_servers_runs R) as [Hgi ->]
    end.
    exists d, g, i, lis, ilis. repeat split; auto; hush_all; reflexivity.
Qed.

(** X9.  With a profiler configuration, the profiler's goroutine is started
    exactly when the profiler is enabled and the configuration is not in
    error, once, for the configured port and the five pprof routes; and it
    is started before [Run] tries to bind a port. *)
Theorem profiler_started_before_binding
  env s ctx srv dst authentication p localInvoker :
  let t := snd (Run env s ctx (Some srv) dst authentication (Some p)
                  localInvoker) in
  profilers t
  = match configuration_error env srv authentication with
    | Some _ => []
    | None =>
        if config.Profiler_Enabled p
        then [ (config.Profiler_Port p, pprof_mux pprof_routes) ]
        else []
    end /\
  exists t1 t2,
    t = t1 ++ t2 /\
    Forall (fun e => kind_of e <> KListen) t1 /\
    profilers t2 = [].
Proof.
  cbn zeta.
  open_run env s ctx srv dst authentication (Some p) localInvoker.
  all: try match goal with
         | H : configuration_error _ _ _ = _ |- _ => rewrite H
         end.
  all: repeat match goal with
         | R : runs (start_profiler _) _ _ |- _ =>
             let Hr := fresh "Hr" in
             let Ht := fresh "Ht" in
             pose proof (start_profiler_runs R) as [Hr Ht]; clear R
         end.
  all: try (subst; discriminate).
  - split; [ hush_all; reflexivity | ].
    exists (t ++ t_d), []. rewrite app_nil_r. split; [ reflexivity | ].
    split; [ | reflexivity ].
    apply Forall_app. split;
      (eapply Forall_impl; [ | eassumption ]); kinds_only.
  - split; [ hush_all; subst t_p; destruct (config.Profiler_Enabled p);
             reflexivity | ].
    exists (t_i ++ t_s ++ t_p), (t_b ++ t_d).
    split; [ rewrite <- !app_assoc; reflexivity | ].
    split; [ | hush_all; reflexivity ].
    repeat (apply Forall_app; split);
      (eapply Forall_impl; [ | eassumption ]); kinds_only.
  - split; [ hush_all; subst t_p; destruct (config.Profiler_Enabled p);
             reflexivity | ].
    exists (t_i ++ t_s ++ t_p), (t_b ++ t_g ++ t_d).
    split; [ rewrite <- !app_assoc; reflexivity | ].
    split; [ | hush_all; reflexivity ].
    repeat (apply Forall_app; split);
      (eapply Forall_impl; [ | eassumption ]); kinds_only.
  - split; [ hush_all; subst t_p; destruct (config.Profiler_Enabled p);
             reflexivity | ].
    exists (t_i ++ t_s ++ t_p), (t_b ++ t_g ++ t_w ++ t_d).
    split; [ rewrite <- !app_assoc; reflexivity | ].
    split; [ | hush_all; reflexivity ].
    repeat (apply Forall_app; split);
      (eapply Forall_impl; [ | eassumption ]); kinds_only.
Qed.

Lemma Forall_of_kinds (P : event -> Prop) ks t :
  Forall (among ks) t -> (forall e, among ks e -> P e) -> Forall P t.
Proof. intros H HP. eapply Forall_impl; [ exact HP | exact H ]. Qed.

(** [by_kinds]: a property of events that only events of other kinds can
    break holds of every stretch. *)
Ltac by_kinds :=
  repeat (apply Forall_app; split);
  try solve [ eapply Forall_of_kinds; [ eassumption | kinds_only ] ].

(** X10.  Both RPC servers are constructed with the transport credentials
    the configuration asks for: the certificate and key of the RPC
    transport when its TLS is enabled, and none when it is not. *)
Theorem servers_carry_the_rpc_credentials
  env s ctx srv dst authentication profiler localInvoker :
  Forall (carries_rpc_credentials srv)
    (snd (Run env s ctx (Some srv) dst authentication profiler
            localInvoker)).
Proof.
  open_run env s ctx srv dst authentication profiler localInvoker.
  all: try match goal with
         | R : runs (new_servers _ _ _) _ _ |- _ =>
             destruct (new_servers_runs R) as [_ ->]
         end.
  all: by_kinds.
  all: all_events; cbn; auto.
Qed.

(** X5.  The gateway dials at most once, and then: the primary server's own
    port, blocking, with the credentials that match the transport of the
    RPC servers (the certificate of the RPC transport when its TLS is
    enabled, no encryption otherwise), under a context derived from the
    context of [Run] with a timeout of three seconds, which is done three
    seconds after its creation at the latest. *)
Theorem gateway_dial_matches_the_rpc_transport
  env s ctx srv dst authentication profiler localInvoker :
  let t := snd (Run env s ctx (Some srv) dst authentication profiler
                  localInvoker) in
  dials t = [] \/
  exists (at_ : N) (c : Context) (d : N),
    In (EvWithTimeout ctx (3 * Second)%N at_ c) t /\
    dials t
    = [ (c, (":" ++ config.GRPC_Port (config.Srv_GRPC srv))%string,
         [ WithBlock; WithUnaryInterceptor_otelgrpc;
           WithTransportCredentials (gateway_credentials srv) ]) ] /\
    done_at c = Some d /\
    (d <= at_ + 3 * Second)%N.
Proof.
  cbn zeta.
  open_run env s ctx srv dst authentication profiler localInvoker.
  1-3: left; hush_all; reflexivity.
  all: match goal with
       | R : runs (start_gateway _ _ _) _ _ |- _ =>
           pose proof (@start_gateway_dials _ _ _ _ _ R) as D
       end.
  all: destruct D as [D | (at0 & c0 & d0 & Hin & D & Hc0 & Hd0)].
  all: try (left; hush_all; fold (dials t_g); rewrite D; reflexivity).
  all: right; exists at0, c0, d0.
  all: split; [ rewrite !in_app_iff; auto 10 | ].
  all: split; [ hush_all; fold (dials t_g); rewrite D; reflexivity | ].
  all: split; [ assumption | apply N.leb_le; assumption ].
Qed.

Lemma gateways_started t : gateways t = [] -> gateway_started t = false.
Proof.
  induction t as [|e t IH]; [ reflexivity | ].
  destruct e as [| | | | | | [] | | | | | | | | | | | | |]; cbn;
    try exact IH; discriminate.
Qed.

(** What the gateway part leaves in a call when it does not hand a server
    back: no gateway goroutine. *)
Lemma no_gateway_without_server env ctx srv t r :
  runs (start_gateway env ctx srv) t r ->
  match r with Val (Some _) => False | _ => True end ->
  gateways t = [].
Proof.
  intros R Hr. pose proof (@start_gateway_runs _ _ _ _ _ R) as G. cbn zeta in G.
  destruct r as [[server|] | [e|] | msg | ]; try contradiction; auto.
  destruct G as [-> _]. reflexivity.
Qed.

(** X6.  The gateway's goroutine is started at most once, and then with the
    server the configuration describes: it listens on the HTTP port, its
    handler is the gateway mux behind the cross-origin policy (credentials
    allowed, origins and headers from the configuration, the six methods
    GET, POST, HEAD, PATCH, DELETE and PUT), the time to read the headers
    of a request is bounded by five seconds, and it serves with the TLS
    section of the HTTP configuration. *)
Theorem gateway_server_as_configured
  env s ctx srv dst authentication profiler localInvoker :
  let t := snd (Run env s ctx (Some srv) dst authentication profiler
                  localInvoker) in
  let http := config.Srv_HTTP srv in
  gateways t = [] \/
  exists mux,
    config.HTTP_Enabled http = true /\
    gateways t
    = [ ({| Addr := (":" ++ config.HTTP_Port http)%string;
            Srv_Handler :=
              cors_Handler
                {| AllowCredentials := true;
                   AllowedOrigins := config.CORSAllowedOrigins http;
                   AllowedHeaders := config.CORSAllowedHeaders http;
                   AllowedMethods :=
                     ["GET"; "POST"; "HEAD"; "PATCH"; "DELETE"; "PUT"] |}
                mux;
            ReadTimeout := 0%N;
            WriteTimeout := 0%N;
            IdleTimeout := 0%N;
            ReadHeaderTimeout := (5 * Second)%N |},
         config.HTTP_TLSConfig http) ].
Proof.
  cbn zeta.
  open_run env s ctx srv dst authentication profiler localInvoker.
  1-3: left; hush_all; reflexivity.
  - left. hush_all. fold (gateways t_g).
    match goal with
    | R : runs (start_gateway _ _ _) _ _ |- _ =>
        apply (@no_gateway_without_server _ _ _ _ _ R)
    end.
    destruct r_g as [[?|]| | |]; try exact I; discriminate.
  - match goal with
    | R : runs (start_gateway _ _ _) _ _ |- _ =>
        pose proof (@start_gateway_runs _ _ _ _ _ R) as G; cbn zeta in G
    end.
    destruct h as [server|].
    + right. destruct G as (He & conn & mux & _ & _ & _ & Hg & Hs).
      exists mux. split; [ exact He | ].
      hush_all. fold (gateways t_g). rewrite Hg, Hs. reflexivity.
    + left. destruct G as [-> _]. hush_all. reflexivity.
Qed.

(** X7.  When the gateway's goroutine is started, the four handlers
    (permission, schema, data, tenancy) have been registered without error,
    in that order, on the one mux it serves, over the one connection that
    was dialed; the health endpoint of that mux goes over the same
    connection, and its marshaler is the gateway's. *)
Theorem gateway_started_after_registration
  env s ctx srv dst authentication profiler localInvoker :
  let t := snd (Run env s ctx (Some srv) dst authentication profiler
                  localInvoker) in
  gateway_started t = true ->
  exists conn mux server tls policy,
    dialed t = [conn] /\
    muxes t
    = [ (mux, [ WithHealthzEndpoint conn;
                WithMarshalerOption MIMEWildcard gateway_marshaler ]) ] /\
    handlers t
    = [ (PermissionHandler, mux, conn, None);
        (SchemaHandler, mux, conn, None);
        (DataHandler, mux, conn, None);
        (TenancyHandler, mux, conn, None) ] /\
    gateways t = [ (server, tls) ] /\
    Srv_Handler server = cors_Handler policy mux.
Proof.
  cbn zeta.
  open_run env s ctx srv dst authentication profiler localInvoker.
  all: rewrite ?gateway_started_app.
  all: repeat match goal with
         | H : Forall (among _) ?seg |- context [gateway_started ?seg] =>
             rewrite (gateway_silent H) by not_in_kinds
         end.
  all: cbn [orb]; try discriminate.
  - intros Hs. exfalso.
    match goal with
    | R : runs (start_gateway _ _ _) _ _ |- _ =>
        assert (G : gateways t_g = [])
          by (apply (@no_gateway_without_server _ _ _ _ _ R);
              destruct r_g as [[?|]| | |]; try exact I; discriminate)
    end.
    rewrite (gateways_started _ G) in Hs. discriminate.
  - match goal with
    | R : runs (start_gateway _ _ _) _ _ |- _ =>
        pose proof (@start_gateway_runs _ _ _ _ _ R) as G; cbn zeta in G
    end.
    destruct h as [server|].
    + intros _. destruct G as (He & conn & mux & Hd & Hm & Hh & Hg & Hs).
      exists conn, mux, server, (config.HTTP_TLSConfig (config.Srv_HTTP srv)).
      eexists. repeat split.
      * hush_all. fold (dialed t_g). rewrite Hd. reflexivity.
      * hush_all. fold (muxes t_g). rewrite Hm. reflexivity.
      * hush_all. fold (handlers t_g). rewrite Hh. reflexivity.
      * hush_all. fold (gateways t_g). rewrite Hg. reflexivity.
      * rewrite Hs. reflexivity.
    + destruct G as [-> _]. cbn. discriminate.
Qed.

Lemma gateway_started_after_registration_witness :
  let t := snd (Run quiet container (cancelled_at (60 * Second))
                  (Some (server_config true no_tls)) (Some invoker_config)
                  None (Some (profiler_config false)) local_invoker) in
  gateway_started t = true /\
  exists conn mux server tls policy,
    dialed t = [conn] /\
    muxes t
    = [ (mux, [ WithHealthzEndpoint conn;
                WithMarshalerOption MIMEWildcard gateway_marshaler ]) ] /\
    handlers t
    = [ (PermissionHandler, mux, conn, None);
        (SchemaHandler, mux, conn, None);
        (DataHandler, mux, conn, None);
        (TenancyHandler, mux, conn, None) ] /\
    gateways t = [ (server, tls) ] /\
    Srv_Handler server = cors_Handler policy mux.
Proof.
  cbn zeta. split; [ vm_compute; reflexivity | ].
  apply (@gateway_started_after_registration quiet container
           (cancelled_at (60 * Second)) (server_config true no_tls)
           (Some invoker_config) None (Some (profiler_config false))
           local_invoker).
  vm_compute. reflexivity.
Defined.

(** ** Without the gateway *)

Lemma start_gateway_disabled env ctx srv t r :
  runs (start_gateway env ctx srv) t r ->
  config.HTTP_Enabled (config.Srv_HTTP srv) = false ->
  t = [] /\ r = Val None.
Proof.
  intros (st & <- & <-).
  destruct srv as [rl [gp [ge gc gk]] [he hp htls ho hh]]. cbn.
  intros ->. split; reflexivity.
Qed.

Lemma wait_and_shutdown_alone env ctx g i t r :
  runs (wait_and_shutdown env ctx None g i) t r ->
  shutdown_calls t = [] /\ (r = Return None \/ r = Block).
Proof.
  intros (st & <- & <-). destruct st as [n0 p0 d0], ctx as [cd ce].
  norm; repeat run_step; auto.
Qed.

(** X11.  With the HTTP section disabled there is no gateway: no dial, no
    mux, no handler, no goroutine of a gateway and no call of [Shutdown];
    and a call that got to serve can only end with nil, since only the
    gateway can fail once both listeners are bound. *)
Theorem no_gateway_when_http_is_disabled
  env s ctx srv dst authentication profiler localInvoker :
  config.HTTP_Enabled (config.Srv_HTTP srv) = false ->
  let r := Run env s ctx (Some srv) dst authentication profiler
             localInvoker in
  dials (snd r) = [] /\
  muxes (snd r) = [] /\
  handlers (snd r) = [] /\
  gateways (snd r) = [] /\
  shutdown_calls (snd r) = [] /\
  (serving (snd r) <> [] -> fst r = Returned None \/ fst r = Blocked).
Proof.
  intros Hd. cbn zeta.
  open_run env s ctx srv dst authentication profiler localInvoker.
  - repeat split; try (hush_all; reflexivity).
    intros Hs. contradiction Hs. hush_all. reflexivity.
  - repeat split; try (hush_all; reflexivity).
    intros Hs. contradiction Hs. hush_all. reflexivity.
  - repeat split; try (hush_all; reflexivity).
    intros Hs. contradiction Hs.
    match goal with
    | R : runs (bind_and_serve _ _ _ _ _) _ _ |- _ =>
        pose proof (bind_and_serve_runs R) as B
    end.
    destruct r_b as [a | [e|] | msg | ];
      try discriminate; try contradiction; hush_all; reflexivity.
  - match goal with
    | R : runs (start_gateway _ _ _) _ _ |- _ =>
        destruct (@start_gateway_disabled _ _ _ _ _ R Hd) as [_ ->]
    end.
    discriminate.
  - match goal with
    | R : runs (start_gateway _ _ _) _ _ |- _ =>
        destruct (@start_gateway_disabled _ _ _ _ _ R Hd) as [-> [= ->]]
    end.
    match goal with
    | R : runs (wait_and_shutdown _ _ _ _ _) _ _ |- _ =>
        destruct (wait_and_shutdown_alone R) as [Hw Hr]
    end.
    repeat split; try (hush_all; reflexivity).
    + hush_all. fold (shutdown_calls t_w). rewrite Hw. reflexivity.
    + intros _. destruct Hr as [-> | ->]; cbn; auto.
Qed.

Lemma no_gateway_when_http_is_disabled_witness :
  let srv := server_config false no_tls in
  let r := Run quiet container (cancelled_at (60 * Second))
             (Some srv) (Some invoker_config) None
             (Some (profiler_config false)) local_invoker in
  config.HTTP_Enabled (config.Srv_HTTP srv) = false /\
  dials (snd r) = [] /\
  muxes (snd r) = [] /\
  handlers (snd r) = [] /\
  gateways (snd r) = [] /\
  shutdown_calls (snd r) = [] /\
  (serving (snd r) <> [] -> fst r = Returned None \/ fst r = Blocked).
Proof.
  cbn zeta. split; [ reflexivity | ].
  apply (@no_gateway_when_http_is_disabled quiet container
           (cancelled_at (60 * Second)) (server_config false no_tls)
           (Some invoker_config) None (Some (profiler_config false))
           local_invoker).
  reflexivity.
Defined.

(** ** The order of the shutdown *)

Lemma Run_without_server env s ctx dst authentication profiler localInvoker :
  Run env s ctx None dst authentication profiler localInvoker
  = (Panicked nil_dereference, []).
Proof. reflexivity. Qed.

Lemma start_gateway_started env ctx srv t h :
  runs (start_gateway env ctx srv) t (Val h) ->
  gateway_started t = present h /\
  present h = config.HTTP_Enabled (config.Srv_HTTP srv).
Proof.
  intros R. pose proof (@start_gateway_runs _ _ _ _ _ R) as G. cbn zeta in G.
  destruct R as (st & <- & Hr).
  destruct (start_gateway_step env ctx srv st) as (_ & _ & Hg).
  rewrite Hr in Hg. split; [ exact Hg | ].
  destruct h as [server|].
  - destruct G as [-> _]. reflexivity.
  - destruct G as [_ ->]. reflexivity.
Qed.

(** C6.  In every call of [Run] the steps of the shutdown are taken in one
    order.  When the context is done and the start-up went through, the
    gateway, when there is one, is shut down before any RPC server is asked
    to stop: either its shutdown fails and that error ends the call with no
    server stopped, or the primary server (the first one constructed) is
    asked to stop and, once that stop has returned, the invoker server (the
    second one) is, after which [Run] returns nil; a graceful stop that
    never returns leaves the call there.  In every other call nothing is
    stopped. *)
Theorem shutdown_gateway_then_primary_then_invoker
  env s ctx srv dst authentication profiler localInvoker :
  shutdown_in_order env ctx srv
    (Run env s ctx srv dst authentication profiler localInvoker).
Proof.
  unfold shutdown_in_order, shutdown_due, is_serving. cbn zeta.
  destruct srv as [srv|];
    [ | rewrite Run_without_server; cbn; rewrite andb_false_r; reflexivity ].
  open_run env s ctx srv dst authentication profiler localInvoker.
  - replace (serving (t ++ t_d)) with (@nil (ptr * ptr))
      by (hush_all; reflexivity).
    rewrite andb_false_r. cbn. hush_all. reflexivity.
  - replace (serving ((t_i ++ t_s ++ t_p) ++ t_d)) with (@nil (ptr * ptr))
      by (hush_all; reflexivity).
    rewrite andb_false_r. cbn. hush_all. reflexivity.
  - match goal with
    | R : runs (bind_and_serve _ _ _ _ _) _ _ |- _ =>
        pose proof (bind_and_serve_runs R) as B
    end.
    assert (Kb : Forall (among [KListen]) t_b)
      by (destruct r_b as [a | [e|] | msg | ];
          try discriminate; try contradiction; exact B).
    replace (serving ((t_i ++ t_s ++ t_p ++ t_b) ++ t_d))
      with (@nil (ptr * ptr)) by (hush_all; reflexivity).
    rewrite andb_false_r. cbn. hush_all. reflexivity.
  - match goal with
    | R : runs (start_gateway _ _ _) _ _ |- _ =>
        pose proof (@start_gateway_runs _ _ _ _ _ R) as G; cbn zeta in G;
        assert (Hn : gateways t_g = [])
          by (apply (@no_gateway_without_server _ _ _ _ _ R);
              destruct r_g as [[?|]| | |]; try exact I; discriminate);
        assert (He : config.HTTP_Enabled (config.Srv_HTTP srv) = true)
          by (destruct (config.HTTP_Enabled (config.Srv_HTTP srv)) eqn:E;
              [ reflexivity
              | destruct (@start_gateway_disabled _ _ _ _ _ R E) as [_ ->];
                discriminate ])
    end.
    rewrite !gateway_started_app.
    repeat match goal with
           | H : Forall (among _) ?seg |- context [gateway_started ?seg] =>
               rewrite (gateway_silent H) by not_in_kinds
           end.
    rewrite (gateways_started _ Hn). cbn [orb gateway_enabled].
    rewrite He. cbn [Bool.eqb]. rewrite andb_false_r.
    hush_all. reflexivity.
  - match goal with
    | R : runs (start_gateway _ _ _) _ _ |- _ =>
        destruct (@start_gateway_started _ _ _ _ _ R) as [Hg He]
    end.
    match goal with
    | R : runs (bind_and_serve _ _ _ _ _) _ _ |- _ =>
        destruct (bind_and_serve_runs R) as (d & lis & ilis & -> & Hl & Eb)
    end.
    match goal with
    | R : runs (new_servers _ _ _) _ _ |- _ =>
        destruct (new_servers_runs R) as [Hgi Es]
    end.
    match goal with
    | R : runs (wait_and_shutdown _ _ _ _ _) _ _ |- _ =>
        pose proof (wait_and_shutdown_runs R) as Wf
    end.
    match goal with
    | |- context [serving ?T] => set (whole := T)
    end.
    assert (Sv : serving whole = [(g, lis); (i, ilis)])
      by (subst whole; rewrite Eb; hush_all; reflexivity).
    assert (Ss : servers whole = [g; i])
      by (subst whole; rewrite Es; hush_all; reflexivity).
    assert (St : stops whole = stops t_w)
      by (subst whole; hush_all; reflexivity).
    assert (Sc : shutdown_calls whole = shutdown_calls t_w)
      by (subst whole; hush_all; reflexivity).
    assert (Gs : gateway_started whole = present h).
    { subst whole. rewrite !gateway_started_app.
      repeat match goal with
             | H : Forall (among _) ?seg |- context [gateway_started ?seg] =>
                 rewrite (gateway_silent H) by not_in_kinds
             end.
      rewrite Hg. cbn [orb]. rewrite ?orb_false_r. reflexivity. }
    rewrite Sv, Ss, St, Gs. cbn [gateway_enabled]. rewrite He.
    rewrite eqb_reflx, andb_true_r, andb_true_r.
    destruct (done_at ctx) as [stop|]; cbn [present].
    + cbn zeta in Wf. exists g, i. split; [ reflexivity | ].
      destruct Wf as [(Hp & Hs & e & Hf & ->)
                     | [(Hd & Hs & ->) | (Hd & Hs & -> & _)]].
      * left. rewrite <- He, Hp. repeat split; auto.
        exists e. split; [ | reflexivity ].
        unfold shutdown_failed_with. rewrite Sc. exact Hf.
      * right; left. rewrite <- He. auto.
      * right; right. rewrite <- He. repeat split; auto.
        destruct (present (invokeServer_drain env)); reflexivity.
    + destruct Wf as [-> _]. reflexivity.
Qed.

(** ** One admission-control domain, in every call *)

(** C7.  A call of [Run] with a server configuration constructs exactly one
    rate limiter.  When the configuration is not in error, it constructs
    the primary and the invoker server, two distinct servers, from one and
    the same list of options, whose unary and streaming chains consult that
    limiter and no other; when the configuration is in error it constructs
    no server.  (Without a server configuration the call panics on line 102
    and constructs nothing.) *)
Theorem one_limiter_shared_by_both_servers
  env s ctx srv dst authentication profiler localInvoker :
  one_admission_domain env srv authentication
    (Run env s ctx srv dst authentication profiler localInvoker).
Proof.
  unfold one_admission_domain.
  destruct srv as [srv|];
    [ | rewrite Run_without_server; cbn; auto ].
  destruct (Run_shares_limiter env s ctx srv dst authentication profiler
              localInvoker) as (limiter & Hl & Hopts).
  exists limiter. split; [ exact Hl | ]. clear Hl.
  open_run env s ctx srv dst authentication profiler localInvoker.
  1: { match goal with H : configuration_error _ _ _ = _ |- _ => rewrite H end.
       hush_all. reflexivity. }
  all: rewrite Hc.
  all: match goal with
       | R : runs (new_servers _ _ _) _ _ |- _ =>
           destruct (new_servers_runs R) as [Hgi Es]
       end.
  all: exists g, i, opts.
  all: match goal with
       | |- _ /\ servers ?T = _ /\ _ =>
           assert (So : server_options_of T = [opts; opts])
             by (rewrite Es; hush_all; reflexivity)
       end.
  all: split; [ exact Hgi | ].
  all: split; [ rewrite Es; hush_all; reflexivity | ].
  all: split; [ exact So | ].
  all: rewrite So in Hopts.
  all: destruct Hopts as [Hn | (o & [= <-] & Ha)];
         [ discriminate | exact Ha ].
Qed.

(** A call without a server configuration panics on line 102, in
    [srv.RateLimit], before [NewRateLimiter] is called: it constructs no
    limiter and no server. *)
Lemma no_limiter_without_server_configuration :
  let r := Run quiet container (cancelled_at (60 * Second)) None
             (Some invoker_config) None (Some (profiler_config false))
             local_invoker in
  fst r = Panicked nil_dereference /\
  limiters (snd r) = [] /\
  servers (snd r) = [].
Proof. cbn zeta. repeat split. Qed.

(** A call whose configuration is in error constructs the limiter and no
    server: here the authentication method is unknown. *)
Example limiter_without_servers :
  let r := Run quiet container (cancelled_at (60 * Second))
             (Some (server_config true no_tls)) (Some invoker_config)
             (Some (authn_config true "ldap"))
             (Some (profiler_config false)) local_invoker in
  fst r = Returned (Some (ErrString "unknown authentication method: 'ldap'")) /\
  limiters (snd r) = [0] /\
  servers (snd r) = [].
Proof. cbn zeta. repeat split; vm_compute; reflexivity. Qed.

(** ** The JSON policy of the gateway that is started *)

(** C8.  Every mux constructed in a call has one marshaler, registered for
    every MIME type, that keeps the original proto field names, emits the
    fields with default or empty values, and discards the unknown fields of
    a request.  The gateway a call starts serves the one mux constructed,
    so it has that policy; and with the HTTP section enabled, a call that
    returns nil or is still running has started the gateway. *)
Theorem gateway_marshaling_policy
  env s ctx srv dst authentication profiler localInvoker :
  let r := Run env s ctx srv dst authentication profiler localInvoker in
  Forall gateway_json_policy (snd r) /\
  (gateway_started (snd r) = true -> gateway_serves_json_policy (snd r)) /\
  (gateway_enabled srv = true ->
   fst r = Returned None \/ fst r = Blocked ->
   gateway_started (snd r) = true).
Proof.
  cbn zeta. split; [ apply Run_muxes_json_policy | ].
  destruct srv as [srv|];
    [ | rewrite Run_without_server; cbn;
        split; [ discriminate | intros _ [|]; discriminate ] ].
  cbn [gateway_enabled].
  open_run env s ctx srv dst authentication profiler localInvoker.
  all: rewrite ?gateway_started_app.
  all: repeat match goal with
         | H : Forall (among _) ?seg |- context [gateway_started ?seg] =>
             rewrite (gateway_silent H) by not_in_kinds
         end.
  all: cbn [orb]; rewrite ?orb_false_r.
  - split; [ discriminate | intros _ [|]; discriminate ].
  - split; [ discriminate | ].
    match goal with
    | R : runs (start_profiler _) _ _ |- _ =>
        pose proof (start_profiler_runs R) as P
    end.
    destruct profiler; destruct P as [-> _]; try discriminate.
    intros _ [|]; discriminate.
  - split; [ discriminate | ].
    match goal with
    | R : runs (bind_and_serve _ _ _ _ _) _ _ |- _ =>
        pose proof (bind_and_serve_runs R) as B
    end.
    destruct r_b as [a | [e|] | msg | ];
      try discriminate; try contradiction; intros _ [|]; discriminate.
  - match goal with
    | R : runs (start_gateway _ _ _) _ _ |- _ =>
        pose proof (@start_gateway_runs _ _ _ _ _ R) as G; cbn zeta in G;
        assert (Hn : gateways t_g = [])
          by (apply (@no_gateway_without_server _ _ _ _ _ R);
              destruct r_g as [[?|]| | |]; try exact I; discriminate)
    end.
    rewrite (gateways_started _ Hn).
    split; [ discriminate | ].
    destruct r_g as [a | [e|] | msg | ];
      try discriminate; try contradiction; intros _ [|]; discriminate.
  - match goal with
    | R : runs (start_gateway _ _ _) _ _ |- _ =>
        destruct (@start_gateway_started _ _ _ _ _ R) as [Hg He];
        pose proof (@start_gateway_runs _ _ _ _ _ R) as G; cbn zeta in G
    end.
    rewrite Hg. split.
    + destruct h as [server|]; [ intros _ | discriminate ].
      destruct G as (_ & conn & mux & _ & Hm & _ & Hgw & Hs).
      unfold gateway_serves_json_policy.
      exists server, (config.HTTP_TLSConfig (config.Srv_HTTP srv)).
      eexists _, mux, _, gateway_marshaler.
      split; [ hush_all; fold (gateways t_g); rewrite Hgw; reflexivity | ].
      split; [ rewrite Hs; reflexivity | ].
      split; [ hush_all; fold (muxes t_g); rewrite Hm; reflexivity | ].
      split; [ reflexivity | repeat split ].
    + intros <- _. exact He.
Qed.

Lemma gateway_marshaling_policy_witness :
  let srv := Some (server_config true no_tls) in
  let r := Run quiet container (cancelled_at (60 * Second)) srv
             (Some invoker_config) None (Some (profiler_config false))
             local_invoker in
  gateway_enabled srv = true /\
  fst r = Returned None /\
  gateway_serves_json_policy (snd r).
Proof.
  cbn zeta.
  destruct (@gateway_marshaling_policy quiet container
              (cancelled_at (60 * Second))
              (Some (server_config true no_tls)) (Some invoker_config) None
              (Some (profiler_config false)) local_invoker)
    as (_ & Hserves & Hstarted).
  split; [ reflexivity | ].
  split; [ vm_compute; reflexivity | ].
  apply Hserves, Hstarted; [ reflexivity | left; vm_compute; reflexivity ].
Defined.

(** ** How a call ends *)

Lemma gracefully_stopped_of_stops t :
  gracefully_stopped t
  = flat_map (fun x => match x with
                       | StopRPC server => [server]
                       | StopHTTP => []
                       end) (stops t).
Proof.
  unfold gracefully_stopped, stops.
  induction t as [|e t IH]; [ reflexivity | ].
  destruct e; cbn; first [ exact IH | rewrite IH; reflexivity ].
Qed.

(** X8.  [Run] returns nil only at the end of a whole shutdown: the context
    was done, both RPC servers were constructed, each served the listener
    [Run] bound for it (lines 212 and 218), both were asked to stop
    gracefully, the primary one first, both stops returned, and the line
    that says so was logged.  (The listeners bound inside the goroutines of
    the profiler and of the gateway are not among these.) *)
Theorem nil_return_after_graceful_stop
  env s ctx srv dst authentication profiler localInvoker :
  let r := Run env s ctx srv dst authentication profiler localInvoker in
  fst r = Returned None ->
  (exists d, done_at ctx = Some d) /\
  grpcServer_drain env <> None /\
  invokeServer_drain env <> None /\
  In (EvLog LevelInfo "gracefully shutting down") (snd r) /\
  exists grpcServer invokeServer address lis invokeAddress invokeLis,
    servers (snd r) = [grpcServer; invokeServer] /\
    bound (snd r) = [(address, lis); (invokeAddress, invokeLis)] /\
    lis <> invokeLis /\
    serving (snd r) = [(grpcServer, lis); (invokeServer, invokeLis)] /\
    gracefully_stopped (snd r) = [grpcServer; invokeServer].
Proof.
  cbn zeta. destruct srv as [srv|];
    [ | rewrite Run_without_server; discriminate ].
  open_run env s ctx srv dst authentication profiler localInvoker.
  - discriminate.
  - match goal with
    | R : runs (start_profiler _) _ _ |- _ =>
        pose proof (start_profiler_runs R) as P
    end.
    destruct profiler; destruct P as [-> _]; discriminate.
  - match goal with
    | R : runs (bind_and_serve _ _ _ _ _) _ _ |- _ =>
        pose proof (bind_and_serve_runs R) as B
    end.
    destruct r_b as [a | [e|] | msg | ]; try discriminate; contradiction.
  - match goal with
    | R : runs (start_gateway _ _ _) _ _ |- _ =>
        pose proof (@start_gateway_runs _ _ _ _ _ R) as G; cbn zeta in G
    end.
    destruct r_g as [a | [e|] | msg | ]; try discriminate; contradiction.
  - match goal with
    | R : runs (wait_and_shutdown _ _ _ _ _) _ _ |- _ =>
        pose proof (wait_and_shutdown_runs R) as Wf
    end.
    match goal with
    | R : runs (bind_and_serve _ _ _ _ _) _ _ |- _ =>
        destruct (bind_and_serve_runs R) as (d & lis & ilis & -> & Hl & Eb)
    end.
    match goal with
    | R : runs (new_servers _ _ _) _ _ |- _ =>
        destruct (new_servers_runs R) as [Hgi Es]
    end.
    intros Hr.
    destruct (done_at ctx) as [stop|]; cbn zeta in Wf;
      [ | destruct Wf as [_ ->]; discriminate ].
    destruct Wf as [(_ & _ & e & _ & ->)
                   | [(_ & _ & ->) | (Hd & Hs & Er & Hlog)]];
      try discriminate.
    assert (Hi : invokeServer_drain env <> None)
      by (intros Hn; rewrite Hn in Er; subst r_w; discriminate).
    assert (Ew : r_w = Return None)
      by (destruct (invokeServer_drain env);
          [ exact Er | contradiction Hi; reflexivity ]).
    split; [ eauto | ].
    split; [ exact Hd | ].
    split; [ exact Hi | ].
    split; [ rewrite !in_app_iff; auto 10 | ].
    exists g, i, (":" ++ config.GRPC_Port (config.Srv_GRPC srv))%string, lis,
      (":" ++ config.Dst_Port d)%string, ilis.
    split; [ rewrite Es; hush_all; reflexivity | ].
    split; [ rewrite Eb; hush_all; reflexivity | ].
    split; [ exact Hl | ].
    split; [ rewrite Eb; hush_all; reflexivity | ].
    hush_all. fold (gracefully_stopped t_w).
    rewrite gracefully_stopped_of_stops, Hs.
    destruct (present h); reflexivity.
Qed.

Lemma nil_return_after_graceful_stop_witness :
  let r := Run quiet container (cancelled_at (60 * Second))
             (Some (server_config true no_tls)) (Some invoker_config) None
             (Some (profiler_config false)) local_invoker in
  fst r = Returned None /\
  (exists d, done_at (cancelled_at (60 * Second)) = Some d) /\
  grpcServer_drain quiet <> None /\
  invokeServer_drain quiet <> None /\
  In (EvLog LevelInfo "gracefully shutting down") (snd r) /\
  exists grpcServer invokeServer address lis invokeAddress invokeLis,
    servers (snd r) = [grpcServer; invokeServer] /\
    bound (snd r) = [(address, lis); (invokeAddress, invokeLis)] /\
    lis <> invokeLis /\
    serving (snd r) = [(grpcServer, lis); (invokeServer, invokeLis)] /\
    gracefully_stopped (snd r) = [grpcServer; invokeServer].
Proof.
  cbn zeta. split; [ vm_compute; reflexivity | ].
  apply (@nil_return_after_graceful_stop quiet container
           (cancelled_at (60 * Second)) (Some (server_config true no_tls))
           (Some invoker_config) None (Some (profiler_config false))
           local_invoker).
  vm_compute. reflexivity.
Defined.

(** X2.  A call that has not ended is in one of two places, with both RPC
    servers serving and no deferred call run (nothing closed, nothing
    cancelled): it waits for its context, which is never done, and has
    stopped nothing; or its context is done and it is inside a graceful
    stop that does not return, that of the primary server, or, that one
    having returned, that of the invoker server, the gateway, if any,
    having been shut down before. *)
Theorem not_ended_waits_or_drains
  env s ctx srv dst authentication profiler localInvoker :
  let r := Run env s ctx srv dst authentication profiler localInvoker in
  let gateway := if gateway_started (snd r) then [StopHTTP] else [] in
  fst r = Blocked ->
  closed (snd r) = [] /\
  cancelled (snd r) = [] /\
  exists grpcServer invokeServer lis invokeLis,
    servers (snd r) = [grpcServer; invokeServer] /\
    serving (snd r) = [(grpcServer, lis); (invokeServer, invokeLis)] /\
    ((done_at ctx = None /\ stops (snd r) = []) \/
     ((exists d, done_at ctx = Some d) /\
      ((grpcServer_drain env = None /\
        stops (snd r) = gateway ++ [StopRPC grpcServer]) \/
       (grpcServer_drain env <> None /\
        invokeServer_drain env = None /\
        stops (snd r)
        = gateway ++ [StopRPC grpcServer; StopRPC invokeServer])))).
Proof.
  cbn zeta. destruct srv as [srv|];
    [ | rewrite Run_without_server; discriminate ].
  open_run env s ctx srv dst authentication profiler localInvoker.
  - discriminate.
  - match goal with
    | R : runs (start_profiler _) _ _ |- _ =>
        pose proof (start_profiler_runs R) as P
    end.
    destruct profiler; destruct P as [-> _]; discriminate.
  - match goal with
    | R : runs (bind_and_serve _ _ _ _ _) _ _ |- _ =>
        pose proof (bind_and_serve_runs R) as B
    end.
    destruct r_b as [a | [e|] | msg | ]; try discriminate; contradiction.
  - match goal with
    | R : runs (start_gateway _ _ _) _ _ |- _ =>
        pose proof (@start_gateway_runs _ _ _ _ _ R) as G; cbn zeta in G
    end.
    destruct r_g as [a | [e|] | msg | ]; try discriminate; contradiction.
  - match goal with
    | R : runs (wait_and_shutdown _ _ _ _ _) _ _ |- _ =>
        pose proof (wait_and_shutdown_runs R) as Wf
    end.
    match goal with
    | R : runs (start_gateway _ _ _) _ _ |- _ =>
        destruct (@start_gateway_started _ _ _ _ _ R) as [Hg _]
    end.
    match goal with
    | R : runs (bind_and_serve _ _ _ _ _) _ _ |- _ =>
        destruct (bind_and_serve_runs R) as (d & lis & ilis & -> & Hl & Eb)
    end.
    match goal with
    | R : runs (new_servers _ _ _) _ _ |- _ =>
        destruct (new_servers_runs R) as [Hgi Es]
    end.
    intros Hr.
    assert (Ew : r_w = Block)
      by (destruct r_w; try discriminate; reflexivity).
    rewrite (Hb Ew), app_nil_r. clear Hb Kd.
    rewrite !gateway_started_app.
    repeat match goal with
           | H : Forall (among _) ?seg |- context [gateway_started ?seg] =>
               rewrite (gateway_silent H) by not_in_kinds
           end.
    rewrite Hg. cbn [orb]. rewrite ?orb_false_r.
    split; [ hush_all; reflexivity | ].
    split; [ hush_all; reflexivity | ].
    exists g, i, lis, ilis.
    split; [ rewrite Es; hush_all; reflexivity | ].
    split; [ rewrite Eb; hush_all; reflexivity | ].
    destruct (done_at ctx) as [stop|]; cbn zeta in Wf.
    + right. split; [ eauto | ].
      destruct Wf as [(_ & _ & e & _ & Er)
                     | [(Hd & Hs & _) | (Hd & Hs & Er & _)]].
      * rewrite Ew in Er. discriminate.
      * left. split; [ exact Hd | ].
        hush_all. fold (stops t_w). exact Hs.
      * right. split; [ exact Hd | ].
        split; [ | hush_all; fold (stops t_w); exact Hs ].
        rewrite Ew in Er.
        destruct (invokeServer_drain env); [ discriminate | reflexivity ].
    + left. destruct Wf as [-> _]. split; [ reflexivity | ].
      hush_all. reflexivity.
Qed.

Lemma not_ended_waits_or_drains_witness :
  let r := Run open_stream container (cancelled_at (60 * Second))
             (Some (server_config true no_tls)) (Some invoker_config) None
             (Some (profiler_config false)) local_invoker in
  let gateway := if gateway_started (snd r) then [StopHTTP] else [] in
  fst r = Blocked /\
  closed (snd r) = [] /\
  cancelled (snd r) = [] /\
  exists grpcServer invokeServer lis invokeLis,
    servers (snd r) = [grpcServer; invokeServer] /\
    serving (snd r) = [(grpcServer, lis); (invokeServer, invokeLis)] /\
    ((done_at (cancelled_at (60 * Second)) = None /\ stops (snd r) = []) \/
     ((exists d, done_at (cancelled_at (60 * Second)) = Some d) /\
      ((grpcServer_drain open_stream = None /\
        stops (snd r) = gateway ++ [StopRPC grpcServer]) \/
       (grpcServer_drain open_stream <> None /\
        invokeServer_drain open_stream = None /\
        stops (snd r)
        = gateway ++ [StopRPC grpcServer; StopRPC invokeServer])))).
Proof.
  cbn zeta. split; [ vm_compute; reflexivity | ].
  apply (@not_ended_waits_or_drains open_stream container
           (cancelled_at (60 * Second)) (Some (server_config true no_tls))
           (Some invoker_config) None (Some (profiler_config false))
           local_invoker).
  vm_compute. reflexivity.
Defined.

(** A stream stays open on the primary server: after the cancellation the
    gateway is shut down and the primary server is asked to stop, and that
    is where the call stays; the invoker server is never asked to stop and
    no deferred call runs. *)
Example open_stream_run :
  let r := Run open_stream container (cancelled_at (60 * Second))
             (Some (server_config true no_tls)) (Some invoker_config) None
             (Some (profiler_config false)) local_invoker in
  fst r = Blocked /\
  servers (snd r) = [1; 2] /\
  stops (snd r) = [StopHTTP; StopRPC 1] /\
  closed (snd r) = [] /\
  cancelled (snd r) = [].
Proof. cbn zeta. repeat split; vm_compute; reflexivity. Qed.

(** ** The deferred calls *)



Section Keeps.

Variable env : Env.











End Keeps.

